(** * Command-line chat relay: the server's registry, routing and neighbour sync

    A shallow embedding of [src/Server/server.cpp].  The server keeps the
    list of locally connected clients, the rosters last reported by its two
    neighbours in the chain, and one optional connection per neighbour.
    Three loops work on that state: [listenLoop] (ingest), [relayLoop]
    (dispatch) and [maintainToAdjacentServers] (neighbour sync).  Each loop
    is embedded as the function of one iteration; the socket and the console
    are embedded as the list of events an iteration produces. *)

From Stdlib Require Import List String Ascii NArith ZArith Bool Lia.
From Stdlib Require Import DecimalString.
From Stdlib.Strings Require Import Byte.
From Equations Require Import Equations.
Import ListNotations.

Set Implicit Arguments.

(* ================================================================= *)
(** * Part I. Definitions *)
(* ================================================================= *)

(** ** Wire message *)

(** The six message types, in the order of the switch of [listenLoop]. *)
Inductive MessageType : Type :=
| CONNECTION
| DISCONNECT
| CHAT
| PRIVATE_MESSAGE
| SYNC_RIGHT
| SYNC_LEFT.

(** The body of a message: free text, or an ordered list of client
    identifiers (the payload of a sync message). *)
Inductive Payload : Type :=
| TextBody (text : string)
| RosterBody (identifiers : list string).

(** Modelled from the spec: class [dataMessage] of Common/dataMessage.h is
    not among the sources.  The server reads a message through
    [viewMessageType], [viewSourceIdentifier], [viewDestinationIdentifier]
    and [viewServerSyncPayload]; the spec gives it a type, a source and a
    destination identifier and a body that is free text or an identifier
    list. *)
Record dataMessage : Type := mkMessage {
  viewMessageType : MessageType;
  viewSourceIdentifier : string;
  viewDestinationIdentifier : string;
  viewPayload : Payload
}.

(** Modelled from the spec: the accessor of the identifier list of a sync
    message (Common/dataMessage.h is missing); a message with a text body
    carries no identifiers. *)
Definition viewServerSyncPayload (m : dataMessage) : list string :=
  match viewPayload m with
  | RosterBody ids => ids
  | TextBody _ => []
  end.

(** The type determines the variant of the body: an identifier list for the
    two sync types, free text for the other four. *)
Definition payloadMatchesType (t : MessageType) (p : Payload) : bool :=
  match t, p with
  | (SYNC_LEFT | SYNC_RIGHT), RosterBody _ => true
  | (CONNECTION | DISCONNECT | CHAT | PRIVATE_MESSAGE), TextBody _ => true
  | _, _ => false
  end.

(** A validly constructed message: non-empty source identifier and the body
    variant its type asks for. *)
Definition validMessage (m : dataMessage) : bool :=
  negb (String.eqb (viewSourceIdentifier m) EmptyString)
  && payloadMatchesType (viewMessageType m) (viewPayload m).

(** ** Wire codec *)

Module Codec.

Local Open Scope N_scope.

Definition byteOfN (n : N) : byte :=
  match Byte.of_N n with
  | Some b => b
  | None => x00
  end.

Definition inspect {A : Type} (a : A) : {b : A | a = b} :=
  exist _ a eq_refl.

(** A parser consumes a prefix of the buffer, or fails. *)
Definition parser (A : Type) : Type := list byte -> option (A * list byte).

Definition ret {A : Type} (a : A) : parser A := fun bs => Some (a, bs).

Definition bind {A B : Type} (p : parser A) (k : A -> parser B) : parser B :=
  fun bs =>
    match p bs with
    | Some (a, rest) => k a rest
    | None => None
    end.

Declare Scope parser_scope.
Delimit Scope parser_scope with parser.
Notation "x <- p ;; k" := (bind p (fun x => k))
  (at level 61, p at next level, right associativity) : parser_scope.

(** Modelled from the spec: the tag byte of each message type; the enum
    of Common/constants.h is missing. *)
Definition tagOfType (t : MessageType) : byte :=
  match t with
  | CONNECTION => x00
  | DISCONNECT => x01
  | CHAT => x02
  | PRIVATE_MESSAGE => x03
  | SYNC_RIGHT => x04
  | SYNC_LEFT => x05
  end.

Definition typeOfTag (b : byte) : option MessageType :=
  match b with
  | x00 => Some CONNECTION
  | x01 => Some DISCONNECT
  | x02 => Some CHAT
  | x03 => Some PRIVATE_MESSAGE
  | x04 => Some SYNC_RIGHT
  | x05 => Some SYNC_LEFT
  | _ => None
  end.

(** A length is written in base 128, low digit first; every byte but the
    last has its high bit set. *)
Equations? encodeLength (n : N) : list byte by wf (N.to_nat n) lt :=
  encodeLength n with inspect (n <? 128) => {
    | exist _ true _ := [byteOfN n];
    | exist _ false Hge :=
        byteOfN (128 + n mod 128) :: encodeLength (n / 128) }.
Proof.
  apply N.ltb_ge in Hge.
  assert (n / 128 < n) by (apply N.div_lt; lia).
  lia.
Qed.

Fixpoint decodeLength (bs : list byte) : option (N * list byte) :=
  match bs with
  | [] => None
  | b :: rest =>
      let v := Byte.to_N b in
      if v <? 128 then Some (v, rest)
      else match decodeLength rest with
           | Some (hi, rest') => Some (v - 128 + 128 * hi, rest')
           | None => None
           end
  end.

(** [takeBytes n] fails on a buffer shorter than [n]: a truncated
    buffer is never padded or cut short silently. *)
Definition takeBytes (n : nat) : parser (list byte) :=
  fun bs =>
    if (n <=? List.length bs)%nat then Some (firstn n bs, skipn n bs) else None.

Definition encodeString (s : string) : list byte :=
  encodeLength (N.of_nat (String.length s)) ++ list_byte_of_string s.

Definition decodeString : parser string :=
  (n <- decodeLength ;;
   bs <- takeBytes (N.to_nat n) ;;
   ret (string_of_list_byte bs))%parser.

Fixpoint encodeStrings (l : list string) : list byte :=
  match l with
  | [] => []
  | s :: rest => encodeString s ++ encodeStrings rest
  end.

Fixpoint decodeStrings (count : nat) : parser (list string) :=
  match count with
  | O => ret []
  | S k =>
      (s <- decodeString ;;
       rest <- decodeStrings k ;;
       ret (s :: rest))%parser
  end.

Definition encodePayload (p : Payload) : list byte :=
  match p with
  | TextBody text => encodeString text
  | RosterBody ids =>
      encodeLength (N.of_nat (List.length ids)) ++ encodeStrings ids
  end.

(** The body variant is selected by the type. *)
Definition decodePayload (t : MessageType) : parser Payload :=
  match t with
  | SYNC_LEFT | SYNC_RIGHT =>
      (n <- decodeLength ;;
       ids <- decodeStrings (N.to_nat n) ;;
       ret (RosterBody ids))%parser
  | CONNECTION | DISCONNECT | CHAT | PRIVATE_MESSAGE =>
      (text <- decodeString ;; ret (TextBody text))%parser
  end.

Definition decodeType : parser MessageType :=
  fun bs =>
    match bs with
    | [] => None
    | b :: rest =>
        match typeOfTag b with
        | Some t => Some (t, rest)
        | None => None
        end
    end.

Definition decodeMessage : parser dataMessage :=
  (t <- decodeType ;;
   source <- decodeString ;;
   destination <- decodeString ;;
   body <- decodePayload t ;;
   ret (mkMessage t source destination body))%parser.

Inductive decoded : Type :=
| Decoded (m : dataMessage)
| MalformedMessage.

(** Modelled from the spec: [encode] stands for
    [dataMessage::asCharVector] of the missing Common/dataMessage.cpp.
    The spec fixes the header (type, source identifier, destination
    identifier) followed by the body the type selects, and leaves the
    byte layout open; here each string carries its length in front. *)
Definition encode (m : dataMessage) : list byte :=
  tagOfType (viewMessageType m)
    :: encodeString (viewSourceIdentifier m)
    ++ encodeString (viewDestinationIdentifier m)
    ++ encodePayload (viewPayload m).

(** Modelled from the spec: [decode] stands for the constructor of
    [dataMessage] from the received buffer (Common/dataMessage.cpp is
    missing).  A truncated buffer or an unknown type tag gives
    [MalformedMessage].  Bytes after the message are ignored: the ingest
    loop hands over its whole 256-byte receive buffer
    (server.cpp, lines 88-107). *)
Definition decode (bs : list byte) : decoded :=
  match decodeMessage bs with
  | Some (m, _) => Decoded m
  | None => MalformedMessage
  end.

End Codec.

(** ** Peer handle *)

(** [boost::asio::ip::udp::endpoint] over IPv4: an address and a port. *)
Record endpoint : Type := mkEndpoint {
  address : N;
  port : N
}.

(** Class [remoteConnection] (Common/remoteConnection.h, not among the
    sources), as the server uses it: built from an identifier and an
    endpoint, read through [viewIdentifier] and [viewEndpoint]. *)
Record remoteConnection : Type := mkConnection {
  viewIdentifier : string;
  viewEndpoint : endpoint
}.

(** ** Static topology *)

(** What the server takes from namespace [constants] of
    Common/constants.h, which is not among the sources: the validity of a
    neighbour position, and the host, port and name of a chain position. *)
Class Constants : Type := {
  leftAdjacentServerIndexIsValid : Z -> bool;
  rightAdjacentServerIndexIsValid : Z -> bool;
  serverHostName : Z -> string;
  serverListeningPorts : Z -> N;
  serverIndexToServerName : Z -> string;
  serverNames : Z -> string
}.

(** What the server takes from [dataMessage] to put a message on the wire
    and on the console: [asCharVector], the constructor of a sync message
    from the client list, the two server names and the sync type, and
    [viewMessageTypeAsString], the name of the type of a message. *)
Class Wire : Type := {
  asCharVector : dataMessage -> list byte;
  syncMessage :
    list remoteConnection -> string -> string -> MessageType -> dataMessage;
  viewMessageTypeAsString : dataMessage -> string
}.

(** ** Server state *)

(** The members of class [server] that the three loops read and write.
    A neighbour connection is a raw pointer in the source: [None] is
    [nullptr]. *)
Record server : Type := mkServerState {
  m_index : Z;
  m_terminate : bool;
  m_connectedClients : list remoteConnection;
  m_leftAdjacentServerIndex : Z;
  m_leftAdjacentServerConnection : option remoteConnection;
  m_leftAdjacentServerConnectedClients : list string;
  m_rightAdjacentServerIndex : Z;
  m_rightAdjacentServerConnection : option remoteConnection;
  m_rightAdjacentServerConnectedClients : list string;
  m_messageQueue : list dataMessage
}.

(** Conversion to [int8_t], the type of the three index members. *)
Definition int8 (z : Z) : Z := ((z + 128) mod 256 - 128)%Z.

(** The constructor: no client, both neighbour connections null, both
    rosters and the queue empty. *)
Definition newServer (inServerIndex : Z) : server :=
  {| m_index := inServerIndex;
     m_terminate := false;
     m_connectedClients := [];
     m_leftAdjacentServerIndex := int8 (inServerIndex - 1);
     m_leftAdjacentServerConnection := None;
     m_leftAdjacentServerConnectedClients := [];
     m_rightAdjacentServerIndex := int8 (inServerIndex + 1);
     m_rightAdjacentServerConnection := None;
     m_rightAdjacentServerConnectedClients := [];
     m_messageQueue := [] |}.

Definition set_connectedClients (l : list remoteConnection) (s : server)
  : server :=
  {| m_index := m_index s;
     m_terminate := m_terminate s;
     m_connectedClients := l;
     m_leftAdjacentServerIndex := m_leftAdjacentServerIndex s;
     m_leftAdjacentServerConnection := m_leftAdjacentServerConnection s;
     m_leftAdjacentServerConnectedClients :=
       m_leftAdjacentServerConnectedClients s;
     m_rightAdjacentServerIndex := m_rightAdjacentServerIndex s;
     m_rightAdjacentServerConnection := m_rightAdjacentServerConnection s;
     m_rightAdjacentServerConnectedClients :=
       m_rightAdjacentServerConnectedClients s;
     m_messageQueue := m_messageQueue s |}.

Definition set_leftConnection (c : option remoteConnection) (s : server)
  : server :=
  {| m_index := m_index s;
     m_terminate := m_terminate s;
     m_connectedClients := m_connectedClients s;
     m_leftAdjacentServerIndex := m_leftAdjacentServerIndex s;
     m_leftAdjacentServerConnection := c;
     m_leftAdjacentServerConnectedClients :=
       m_leftAdjacentServerConnectedClients s;
     m_rightAdjacentServerIndex := m_rightAdjacentServerIndex s;
     m_rightAdjacentServerConnection := m_rightAdjacentServerConnection s;
     m_rightAdjacentServerConnectedClients :=
       m_rightAdjacentServerConnectedClients s;
     m_messageQueue := m_messageQueue s |}.

Definition set_leftRoster (l : list string) (s : server) : server :=
  {| m_index := m_index s;
     m_terminate := m_terminate s;
     m_connectedClients := m_connectedClients s;
     m_leftAdjacentServerIndex := m_leftAdjacentServerIndex s;
     m_leftAdjacentServerConnection := m_leftAdjacentServerConnection s;
     m_leftAdjacentServerConnectedClients := l;
     m_rightAdjacentServerIndex := m_rightAdjacentServerIndex s;
     m_rightAdjacentServerConnection := m_rightAdjacentServerConnection s;
     m_rightAdjacentServerConnectedClients :=
       m_rightAdjacentServerConnectedClients s;
     m_messageQueue := m_messageQueue s |}.

Definition set_rightConnection (c : option remoteConnection) (s : server)
  : server :=
  {| m_index := m_index s;
     m_terminate := m_terminate s;
     m_connectedClients := m_connectedClients s;
     m_leftAdjacentServerIndex := m_leftAdjacentServerIndex s;
     m_leftAdjacentServerConnection := m_leftAdjacentServerConnection s;
     m_leftAdjacentServerConnectedClients :=
       m_leftAdjacentServerConnectedClients s;
     m_rightAdjacentServerIndex := m_rightAdjacentServerIndex s;
     m_rightAdjacentServerConnection := c;
     m_rightAdjacentServerConnectedClients :=
       m_rightAdjacentServerConnectedClients s;
     m_messageQueue := m_messageQueue s |}.

Definition set_rightRoster (l : list string) (s : server) : server :=
  {| m_index := m_index s;
     m_terminate := m_terminate s;
     m_connectedClients := m_connectedClients s;
     m_leftAdjacentServerIndex := m_leftAdjacentServerIndex s;
     m_leftAdjacentServerConnection := m_leftAdjacentServerConnection s;
     m_leftAdjacentServerConnectedClients :=
       m_leftAdjacentServerConnectedClients s;
     m_rightAdjacentServerIndex := m_rightAdjacentServerIndex s;
     m_rightAdjacentServerConnection := m_rightAdjacentServerConnection s;
     m_rightAdjacentServerConnectedClients := l;
     m_messageQueue := m_messageQueue s |}.

Definition set_messageQueue (q : list dataMessage) (s : server) : server :=
  {| m_index := m_index s;
     m_terminate := m_terminate s;
     m_connectedClients := m_connectedClients s;
     m_leftAdjacentServerIndex := m_leftAdjacentServerIndex s;
     m_leftAdjacentServerConnection := m_leftAdjacentServerConnection s;
     m_leftAdjacentServerConnectedClients :=
       m_leftAdjacentServerConnectedClients s;
     m_rightAdjacentServerIndex := m_rightAdjacentServerIndex s;
     m_rightAdjacentServerConnection := m_rightAdjacentServerConnection s;
     m_rightAdjacentServerConnectedClients :=
       m_rightAdjacentServerConnectedClients s;
     m_messageQueue := q |}.

(** ** Outcomes and events *)

(** The two ways a member function leaves the defined behaviour of the
    program: [assert(false)], and [->] on a null neighbour connection. *)
Inductive fault : Type :=
| AssertionFailed
| NullPointerDereference.

Inductive result (A : Type) : Type :=
| Ok (a : A)
| Fault (f : fault).

Arguments Ok {A} a.
Arguments Fault {A} f.

(** What an iteration does to the outside: a datagram handed to
    [m_UDPsocket.send_to], a query handed to [m_resolver.resolve], a line
    on [std::cout], the text of a caught exception on [std::cout]. *)
Inductive event : Type :=
| SendTo (target : endpoint) (datagram : list byte)
| Resolve (host service : string)
| Cout (line : string)
| CoutException.

(** The endpoints the sends of a trace go to. *)
Definition sendTargets (t : list event) : list endpoint :=
  flat_map (fun e => match e with SendTo ep _ => [ep] | _ => [] end) t.

(** The network as one iteration of the sync loop meets it: what the
    resolver answers to a query ([None]: it throws), and whether a send
    to an endpoint throws. *)
Record network : Type := mkNetwork {
  resolve : string -> string -> option endpoint;
  sendThrows : endpoint -> list byte -> bool
}.

Definition dquote : string := String (ascii_of_nat 34) EmptyString.

(** [std::to_string] of a port number. *)
Definition to_string (n : N) : string := NilZero.string_of_uint (N.to_uint n).

(** ** The member functions of [server] *)

Section Server.

Context {K : Constants} {W : Wire}.

Local Open Scope string_scope.
Local Open Scope list_scope.

(** [server::addClientConnection]: [push_back] on the client list. *)
Definition addClientConnection
  (inClientUsername : string) (inClientEndpoint : endpoint) (s : server)
  : server :=
  set_connectedClients
    (m_connectedClients s
       ++ [mkConnection inClientUsername inClientEndpoint]) s.

(** [server::removeClientConnection].  The [break] of the loop stands
    after the [if], not inside it: the body runs for the first element
    only, erases it when its identifier is the given one, and the loop
    ends. *)
Definition removeClientConnection (inClientUsername : string) (s : server)
  : server :=
  match m_connectedClients s with
  | [] => s
  | currentClient :: rest =>
      if viewIdentifier currentClient =? inClientUsername
      then set_connectedClients rest s
      else s
  end.

(** [server::addToMessageQueue]: [push] at the back of the queue. *)
Definition addToMessageQueue (message : dataMessage) (s : server) : server :=
  set_messageQueue (m_messageQueue s ++ [message]) s.

(** [server::receiveClientsFromAdjacentServers]: a SYNC_LEFT message
    overwrites the roster of the right neighbour, a SYNC_RIGHT message the
    roster of the left neighbour; any other type is [assert(false)]. *)
Definition receiveClientsFromAdjacentServers
  (inSyncMessage : dataMessage) (s : server) : result server :=
  match viewMessageType inSyncMessage with
  | SYNC_LEFT =>
      Ok (set_rightRoster (viewServerSyncPayload inSyncMessage) s)
  | SYNC_RIGHT =>
      Ok (set_leftRoster (viewServerSyncPayload inSyncMessage) s)
  | _ => Fault AssertionFailed
  end.

(** One iteration of [server::listenLoop], from the decoded [message] and
    the endpoint [receive_from] filled in: what the switch does to the
    state.  The two sync types [continue] past [addToMessageQueue]; every
    other type reaches it.  The line the iteration prints before the
    switch is the event of the [Listen] case of [step]. *)
Definition listenLoop
  (message : dataMessage) (clientEndpoint : endpoint) (s : server)
  : result server :=
  match viewMessageType message with
  | CONNECTION =>
      Ok (addToMessageQueue message
            (addClientConnection
               (viewSourceIdentifier message) clientEndpoint s))
  | DISCONNECT =>
      Ok (addToMessageQueue message
            (removeClientConnection (viewSourceIdentifier message) s))
  | CHAT => Ok (addToMessageQueue message s)
  | PRIVATE_MESSAGE => Ok (addToMessageQueue message s)
  | SYNC_RIGHT | SYNC_LEFT => receiveClientsFromAdjacentServers message s
  end.

(** The broadcast loop of [relayUDP]: one send per connected client whose
    identifier is not the source of the message, in list order. *)
Fixpoint broadcastLoop
  (inMessageToSend : dataMessage) (clients : list remoteConnection)
  : list event :=
  match clients with
  | [] => []
  | targetClient :: rest =>
      if negb (viewIdentifier targetClient
                 =? viewSourceIdentifier inMessageToSend)
      then SendTo (viewEndpoint targetClient) (asCharVector inMessageToSend)
             :: broadcastLoop inMessageToSend rest
      else broadcastLoop inMessageToSend rest
  end.

(** The first loop of the unicast branch: send to the first connected
    client whose identifier is the destination, and return. *)
Fixpoint directLoop
  (inMessageToSend : dataMessage) (clients : list remoteConnection)
  : option (list event) :=
  match clients with
  | [] => None
  | targetClient :: rest =>
      if viewIdentifier targetClient
           =? viewDestinationIdentifier inMessageToSend
      then Some [SendTo (viewEndpoint targetClient)
                   (asCharVector inMessageToSend)]
      else directLoop inMessageToSend rest
  end.

(** The loop over a neighbour's roster: [true] when an identifier of the
    roster is the destination (the loop body then sends and returns). *)
Fixpoint rosterLoop (destination : string) (roster : list string) : bool :=
  match roster with
  | [] => false
  | targetClientIdentifier :: rest =>
      if targetClientIdentifier =? destination then true
      else rosterLoop destination rest
  end.

(** The block "check list of left adjacent server": [Some] when the block
    returns from [relayUDP], [None] when control falls through. *)
Definition checkLeftAdjacentServer
  (inMessageToSend : dataMessage) (s : server)
  : option (result (list event)) :=
  match m_leftAdjacentServerConnection s with
  | Some leftConnection =>
      if rosterLoop (viewDestinationIdentifier inMessageToSend)
           (m_leftAdjacentServerConnectedClients s)
      then Some (Ok [SendTo (viewEndpoint leftConnection)
                       (asCharVector inMessageToSend)])
      else None
  | None => None
  end.

(** The block "check list of right adjacent server".  Its guard tests
    [m_leftAdjacentServerConnection] (server.cpp, line 245); the send
    dereferences [m_rightAdjacentServerConnection]. *)
Definition checkRightAdjacentServer
  (inMessageToSend : dataMessage) (s : server)
  : option (result (list event)) :=
  match m_leftAdjacentServerConnection s with
  | Some _ =>
      if rosterLoop (viewDestinationIdentifier inMessageToSend)
           (m_rightAdjacentServerConnectedClients s)
      then
        match m_rightAdjacentServerConnection s with
        | Some rightConnection =>
            Some (Ok [SendTo (viewEndpoint rightConnection)
                        (asCharVector inMessageToSend)])
        | None => Some (Fault NullPointerDereference)
        end
      else None
  | None => None
  end.

(** The line written when no target is found. *)
Definition messageDropped (destination : string) : event :=
  Cout ("Message dropped. Client " ++ dquote ++ destination ++ dquote
          ++ " was not found.").

(** [server::relayUDP].  The sends pass [ignoredError], so none throws. *)
Definition relayUDP (inMessageToSend : dataMessage) (s : server)
  : result (list event) :=
  if viewDestinationIdentifier inMessageToSend =? "broadcast"
  then Ok (broadcastLoop inMessageToSend (m_connectedClients s))
  else
    match directLoop inMessageToSend (m_connectedClients s) with
    | Some sent => Ok sent
    | None =>
        match checkLeftAdjacentServer inMessageToSend s with
        | Some returned => returned
        | None =>
            match checkRightAdjacentServer inMessageToSend s with
            | Some returned => returned
            | None =>
                Ok [messageDropped
                      (viewDestinationIdentifier inMessageToSend)]
            end
        end
    end.

(** [server::relayBluetooth]: an empty body. *)
Definition relayBluetooth (inMessageToSend : dataMessage) (s : server)
  : list event := [].

(** One iteration of the inner loop of [server::relayLoop]: relay the
    front of the queue over both protocols, then pop it. *)
Definition relayLoop (s : server) : result (server * list event) :=
  match m_messageQueue s with
  | [] => Ok (s, [])
  | inMessageToSend :: rest =>
      match relayUDP inMessageToSend s with
      | Ok sent =>
          Ok (set_messageQueue rest s,
              sent ++ relayBluetooth inMessageToSend s)
      | Fault f => Fault f
      end
  end.

(** The left half of one iteration of
    [server::maintainToAdjacentServers]. *)
Definition maintainLeft (net : network) (s : server) : server * list event :=
  if leftAdjacentServerIndexIsValid (m_leftAdjacentServerIndex s)
  then
    match m_leftAdjacentServerConnection s with
    | None =>
        let leftAdjacentServerAddress :=
          serverHostName (m_leftAdjacentServerIndex s) in
        let leftAdjacentServerPort :=
          to_string (serverListeningPorts (m_leftAdjacentServerIndex s)) in
        match resolve net leftAdjacentServerAddress leftAdjacentServerPort
        with
        | Some leftAdjacentServerEndPoint =>
            (set_leftConnection
               (Some (mkConnection
                        (serverIndexToServerName
                           (m_leftAdjacentServerIndex s))
                        leftAdjacentServerEndPoint)) s,
             [Resolve leftAdjacentServerAddress leftAdjacentServerPort])
        | None =>
            (set_leftConnection None s,
             [Resolve leftAdjacentServerAddress leftAdjacentServerPort])
        end
    | Some leftConnection =>
        let datagram :=
          asCharVector
            (syncMessage (m_connectedClients s)
               (serverNames (m_index s))
               (serverNames (m_leftAdjacentServerIndex s))
               SYNC_LEFT) in
        if sendThrows net (viewEndpoint leftConnection) datagram
        then (s, [CoutException])
        else (s, [SendTo (viewEndpoint leftConnection) datagram])
    end
  else (s, []).

(** The right half of the same iteration. *)
Definition maintainRight (net : network) (s : server)
  : server * list event :=
  if rightAdjacentServerIndexIsValid (m_rightAdjacentServerIndex s)
  then
    match m_rightAdjacentServerConnection s with
    | None =>
        let rightAdjacentServerAddress :=
          serverHostName (m_rightAdjacentServerIndex s) in
        let rightAdjacentServerPort :=
          to_string (serverListeningPorts (m_rightAdjacentServerIndex s)) in
        match resolve net rightAdjacentServerAddress rightAdjacentServerPort
        with
        | Some rightAdjacentServerEndPoint =>
            (set_rightConnection
               (Some (mkConnection
                        (serverIndexToServerName
                           (m_rightAdjacentServerIndex s))
                        rightAdjacentServerEndPoint)) s,
             [Resolve rightAdjacentServerAddress rightAdjacentServerPort])
        | None =>
            (set_rightConnection None s,
             [Resolve rightAdjacentServerAddress rightAdjacentServerPort])
        end
    | Some rightConnection =>
        let datagram :=
          asCharVector
            (syncMessage (m_connectedClients s)
               (serverNames (m_index s))
               (serverNames (m_rightAdjacentServerIndex s))
               SYNC_RIGHT) in
        if sendThrows net (viewEndpoint rightConnection) datagram
        then (s, [CoutException])
        else (s, [SendTo (viewEndpoint rightConnection) datagram])
    end
  else (s, []).

(** One iteration of [server::maintainToAdjacentServers]: the left side,
    then the right side (then the sleep). *)
Definition maintainToAdjacentServers (net : network) (s : server)
  : server * list event :=
  let (s1, leftEvents) := maintainLeft net s in
  let (s2, rightEvents) := maintainRight net s1 in
  (s2, leftEvents ++ rightEvents).

(** ** Executions *)

(** The three threads, interleaved at the grain of one loop iteration. *)
Inductive action : Type :=
| Listen (message : dataMessage) (clientEndpoint : endpoint)
| Relay
| Maintain (net : network).

(** One iteration of one loop.  An iteration of [listenLoop] prints
    "Received <type> message from <source>" (server.cpp, lines 109-110)
    before its switch. *)
Definition step (a : action) (s : server) : result (server * list event) :=
  match a with
  | Listen message clientEndpoint =>
      match listenLoop message clientEndpoint s with
      | Ok s' =>
          Ok (s',
              [Cout ("Received " ++ viewMessageTypeAsString message
                       ++ " message from " ++ viewSourceIdentifier message)])
      | Fault f => Fault f
      end
  | Relay => relayLoop s
  | Maintain net => Ok (maintainToAdjacentServers net s)
  end.

(** An execution, as far as it goes: the state it reaches and the events
    it produced; it ends at the first fault. *)
Fixpoint run (actions : list action) (s : server) : server * list event :=
  match actions with
  | [] => (s, [])
  | a :: rest =>
      match step a s with
      | Ok (s', events) =>
          let (s'', later) := run rest s' in (s'', events ++ later)
      | Fault _ => (s, [])
      end
  end.

End Server.

(** ** The Disconnect effect in the words of the specification *)

(** "Remove the first [connectedClients] entry whose identifier equals
    [sourceId]": the search goes through the whole list. *)
Fixpoint removeFirstMatching
  (sourceId : string) (clients : list remoteConnection)
  : list remoteConnection :=
  match clients with
  | [] => []
  | c :: rest =>
      if (viewIdentifier c =? sourceId)%string then rest
      else c :: removeFirstMatching sourceId rest
  end.

(** ** A concrete chain *)

(** A chain of three servers at positions 0, 1 and 2, all on one host. *)
Definition chainOfThree : Constants :=
  {| leftAdjacentServerIndexIsValid := fun i => (0 <=? i)%Z;
     rightAdjacentServerIndexIsValid := fun i => (i <=? 2)%Z;
     serverHostName := fun _ => "localhost"%string;
     serverListeningPorts := fun i => (8080 + Z.to_N i)%N;
     serverIndexToServerName :=
       fun i => ("server" ++ to_string (Z.to_N i))%string;
     serverNames := fun i => ("server" ++ to_string (Z.to_N i))%string |}.

(** The wire of the codec above; a sync message carries the identifiers
    of the given clients, in order; a type is printed under the name of
    its enumerator. *)
Definition codecWire : Wire :=
  {| asCharVector := Codec.encode;
     syncMessage := fun clients source destination type =>
       mkMessage type source destination
         (RosterBody (map viewIdentifier clients));
     viewMessageTypeAsString := fun message =>
       match viewMessageType message with
       | CONNECTION => "CONNECTION"
       | DISCONNECT => "DISCONNECT"
       | CHAT => "CHAT"
       | PRIVATE_MESSAGE => "PRIVATE_MESSAGE"
       | SYNC_RIGHT => "SYNC_RIGHT"
       | SYNC_LEFT => "SYNC_LEFT"
       end%string |}.

Definition alice : remoteConnection :=
  mkConnection "alice" (mkEndpoint 2130706433 50001).
Definition bob : remoteConnection :=
  mkConnection "bob" (mkEndpoint 2130706433 50002).
Definition carol : remoteConnection :=
  mkConnection "carol" (mkEndpoint 2130706433 50003).

Definition leftServer : remoteConnection :=
  mkConnection "server0" (mkEndpoint 2130706433 8080).
Definition rightServer : remoteConnection :=
  mkConnection "server2" (mkEndpoint 2130706433 8082).

(** The middle server of the chain with three clients, both neighbours
    connected; "dave" is at the left neighbour, "erin" at the right. *)
Definition middleServer : server :=
  {| m_index := 1;
     m_terminate := false;
     m_connectedClients := [alice; bob; carol];
     m_leftAdjacentServerIndex := 0;
     m_leftAdjacentServerConnection := Some leftServer;
     m_leftAdjacentServerConnectedClients := ["dave"%string];
     m_rightAdjacentServerIndex := 2;
     m_rightAdjacentServerConnection := Some rightServer;
     m_rightAdjacentServerConnectedClients := ["erin"%string];
     m_messageQueue := [] |}.

(** A network where every host resolves and no send throws, and one where
    nothing resolves and every send throws. *)
Definition networkUp : network :=
  {| resolve := fun _ service =>
       match NilZero.uint_of_string service with
       | Some d => Some (mkEndpoint 2130706433 (N.of_uint d))
       | None => None
       end;
     sendThrows := fun _ _ => false |}.

Definition networkDown : network :=
  {| resolve := fun _ _ => None;
     sendThrows := fun _ _ => true |}.

Definition chat (source destination text : string) : dataMessage :=
  mkMessage CHAT source destination (TextBody text).

(** ** Frames *)

(** Everything but the three client collections: the indices, the
    termination flag, the two neighbour connections and the queue. *)
Definition sameConnectionsAndQueue (s s' : server) : Prop :=
  m_index s' = m_index s
  /\ m_terminate s' = m_terminate s
  /\ m_leftAdjacentServerIndex s' = m_leftAdjacentServerIndex s
  /\ m_leftAdjacentServerConnection s' = m_leftAdjacentServerConnection s
  /\ m_rightAdjacentServerIndex s' = m_rightAdjacentServerIndex s
  /\ m_rightAdjacentServerConnection s' = m_rightAdjacentServerConnection s
  /\ m_messageQueue s' = m_messageQueue s.

(** [s'] differs from [s] in the client list at most. *)
Definition sameButClients (s s' : server) : Prop :=
  sameConnectionsAndQueue s s'
  /\ m_leftAdjacentServerConnectedClients s'
     = m_leftAdjacentServerConnectedClients s
  /\ m_rightAdjacentServerConnectedClients s'
     = m_rightAdjacentServerConnectedClients s.

(** [s'] differs from [s] in the two rosters at most. *)
Definition sameButRosters (s s' : server) : Prop :=
  sameConnectionsAndQueue s s'
  /\ m_connectedClients s' = m_connectedClients s.

(** ** Neighbour slots along an execution *)

(** What every step of every thread keeps: the two indices, a connected
    slot, and the slot of a position that is not valid. *)
Definition slotsKept {K : Constants} (s s' : server) : Prop :=
  m_leftAdjacentServerIndex s' = m_leftAdjacentServerIndex s
  /\ m_rightAdjacentServerIndex s' = m_rightAdjacentServerIndex s
  /\ (forall c, m_leftAdjacentServerConnection s = Some c ->
                m_leftAdjacentServerConnection s' = Some c)
  /\ (forall c, m_rightAdjacentServerConnection s = Some c ->
                m_rightAdjacentServerConnection s' = Some c)
  /\ (leftAdjacentServerIndexIsValid (m_leftAdjacentServerIndex s) = false ->
      m_leftAdjacentServerConnection s' = m_leftAdjacentServerConnection s)
  /\ (rightAdjacentServerIndexIsValid (m_rightAdjacentServerIndex s) = false ->
      m_rightAdjacentServerConnection s' = m_rightAdjacentServerConnection s).

(** ** States of the concrete chain *)

(** The leftmost server after its right neighbour resolved, reported
    "erin" as its client, and "alice" connected here. *)
Definition leftmostActions : list action :=
  [ Maintain networkUp;
    Listen (mkMessage SYNC_LEFT "server1" "server0" (RosterBody ["erin"]))
      (mkEndpoint 2130706433 8081);
    Listen (mkMessage CONNECTION "alice" "broadcast" (TextBody EmptyString))
      (mkEndpoint 2130706433 50001) ]%string.

Definition leftmostServer : server :=
  fst (run (K:=chainOfThree) (W:=codecWire) leftmostActions (newServer 0)).

(** The middle server while its right neighbour does not resolve: the
    right neighbour's sync still arrives and fills the roster. *)
Definition rightUnresolvedServer : server :=
  set_rightConnection None middleServer.

(** ** Readings of a state and of a relay *)

(** The two sync types, which [listenLoop] does not queue. *)
Definition isSync (t : MessageType) : bool :=
  match t with
  | SYNC_LEFT | SYNC_RIGHT => true
  | _ => false
  end.

(** The endpoints of the neighbour connections that are there. *)
Definition neighbourEndpoints (s : server) : list endpoint :=
  match m_leftAdjacentServerConnection s with
  | Some c => [viewEndpoint c]
  | None => []
  end
  ++ match m_rightAdjacentServerConnection s with
     | Some c => [viewEndpoint c]
     | None => []
     end.

(** The events of relaying one message in a state where [relayUDP]
    returns. *)
Definition relayEvents {W : Wire} (m : dataMessage) (s : server)
  : list event :=
  match relayUDP m s with
  | Ok events => events
  | Fault _ => []
  end.

(** A neighbour side at rest: its position is not valid, or its
    connection is there. *)
Definition leftAtRest {K : Constants} (s : server) : Prop :=
  leftAdjacentServerIndexIsValid (m_leftAdjacentServerIndex s) = false
  \/ m_leftAdjacentServerConnection s <> None.

Definition rightAtRest {K : Constants} (s : server) : Prop :=
  rightAdjacentServerIndexIsValid (m_rightAdjacentServerIndex s) = false
  \/ m_rightAdjacentServerConnection s <> None.

(** A trace without a resolver query. *)
Definition noResolve (events : list event) : Prop :=
  Forall (fun e => match e with Resolve _ _ => False | _ => True end) events.

(** The middle server after both neighbours resolved, a CONNECTION
    datagram arrived from the endpoint of the left neighbour, and
    "alice" connected. *)
Definition neighbourAsClientActions : list action :=
  [ Maintain networkUp;
    Listen (mkMessage CONNECTION "server0" "broadcast" (TextBody EmptyString))
      (mkEndpoint 2130706433 8080);
    Listen (mkMessage CONNECTION "alice" "broadcast" (TextBody EmptyString))
      (mkEndpoint 2130706433 50001) ]%string.

Definition neighbourAsClientServer : server :=
  fst (run (K:=chainOfThree) (W:=codecWire) neighbourAsClientActions
         (newServer 1)).

(* ================================================================= *)
(** * Part II. Theorems *)
(* ================================================================= *)

(** ** The codec round trip *)

Module CodecFacts.

Import Codec.
Local Open Scope N_scope.

Lemma typeOfTag_tagOfType (t : MessageType) :
  typeOfTag (tagOfType t) = Some t.
Proof. destruct t; reflexivity. Qed.

Lemma to_N_byteOfN (n : N) : n < 256 -> Byte.to_N (byteOfN n) = n.
Proof.
  intros Hn. unfold byteOfN.
  destruct (Byte.of_N n) as [b|] eqn:E.
  - now apply Byte.to_of_N.
  - apply Byte.of_N_None_iff in E. lia.
Qed.

(** Reading back a length, whatever follows it in the buffer. *)
Lemma decodeLength_encodeLength (n : N) (rest : list byte) :
  decodeLength (encodeLength n ++ rest) = Some (n, rest).
Proof.
  funelim (encodeLength n).
  - match goal with
    | E : (_ <? _) = true |- _ => pose proof (proj1 (N.ltb_lt _ _) E) as Hlt
    end.
    cbn [app decodeLength].
    rewrite to_N_byteOfN by lia.
    now replace (n <? 128) with true by (symmetry; now apply N.ltb_lt).
  - match goal with
    | E : (_ <? _) = false |- _ => pose proof (proj1 (N.ltb_ge _ _) E) as Hle
    end.
    cbn [app decodeLength].
    assert (Hm : n mod 128 < 128) by (apply N.mod_lt; discriminate).
    rewrite to_N_byteOfN by (clear - Hm; lia).
    replace (128 + n mod 128 <? 128) with false
      by (symmetry; apply N.ltb_ge, N.le_add_r).
    match goal with
    | IH : forall _, decodeLength _ = _ |- _ => rewrite IH
    end.
    f_equal. f_equal.
    rewrite (N.div_mod n 128) at 3 by discriminate.
    generalize (n / 128) (n mod 128). clear. intros q r. lia.
Qed.

Lemma takeBytes_app (l rest : list byte) :
  takeBytes (List.length l) (l ++ rest) = Some (l, rest).
Proof.
  unfold takeBytes.
  rewrite length_app.
  replace (List.length l <=? List.length l + List.length rest)%nat with true
    by (symmetry; apply Nat.leb_le; lia).
  rewrite firstn_app, Nat.sub_diag, firstn_all, firstn_O, app_nil_r.
  rewrite skipn_app, Nat.sub_diag, skipn_all, skipn_O.
  reflexivity.
Qed.

Lemma length_list_byte_of_string (s : string) :
  List.length (list_byte_of_string s) = String.length s.
Proof.
  unfold list_byte_of_string. rewrite length_map.
  induction s as [|a s IH]; simpl; [reflexivity | now rewrite IH].
Qed.

Lemma decodeString_encodeString (s : string) (rest : list byte) :
  decodeString (encodeString s ++ rest) = Some (s, rest).
Proof.
  unfold decodeString, encodeString, bind, ret.
  rewrite <- app_assoc, decodeLength_encodeLength.
  rewrite Nat2N.id, <- length_list_byte_of_string, takeBytes_app.
  now rewrite string_of_list_byte_of_string.
Qed.

Lemma decodeStrings_encodeStrings (l : list string) (rest : list byte) :
  decodeStrings (List.length l) (encodeStrings l ++ rest) = Some (l, rest).
Proof.
  induction l as [|s l IH]; [reflexivity|].
  cbn [List.length encodeStrings decodeStrings]. unfold bind, ret.
  rewrite <- app_assoc, decodeString_encodeString.
  now rewrite IH.
Qed.

Lemma decodePayload_encodePayload
  (t : MessageType) (p : Payload) (rest : list byte) :
  payloadMatchesType t p = true ->
  decodePayload t (encodePayload p ++ rest) = Some (p, rest).
Proof.
  intros Hm.
  destruct t, p; try discriminate Hm; cbn [decodePayload encodePayload];
    unfold bind, ret;
    try (now rewrite decodeString_encodeString);
    rewrite <- app_assoc, decodeLength_encodeLength, Nat2N.id;
    now rewrite decodeStrings_encodeStrings.
Qed.

Lemma decodeMessage_encode (m : dataMessage) (rest : list byte) :
  payloadMatchesType (viewMessageType m) (viewPayload m) = true ->
  decodeMessage (encode m ++ rest) = Some (m, rest).
Proof.
  intros Hm. destruct m as [t source destination body]. simpl in Hm.
  unfold decodeMessage, encode, bind, ret.
  cbn [viewMessageType viewSourceIdentifier viewDestinationIdentifier
       viewPayload app decodeType].
  rewrite typeOfTag_tagOfType.
  rewrite <- !app_assoc, decodeString_encodeString.
  rewrite decodeString_encodeString.
  now rewrite decodePayload_encodePayload.
Qed.

(** The decoder refuses an empty buffer, an unknown type tag, and a
    buffer cut before the end of the message. *)
Example decode_empty : decode [] = MalformedMessage.
Proof. reflexivity. Qed.

Example decode_unknown_tag :
  decode (x06 :: encodeString "alice" ++ encodeString "bob"
            ++ encodeString "hi") = MalformedMessage.
Proof. reflexivity. Qed.

Example decode_truncated :
  decode (removelast (encode (mkMessage CHAT "alice" "bob" (TextBody "hi"))))
  = MalformedMessage.
Proof. vm_compute. reflexivity. Qed.

End CodecFacts.

(** C3. For every validly constructed message [m] (any of the six types,
    with the body variant of its type), decoding the bytes that encoding
    [m] produces gives back a message equal to [m]. *)
Theorem decode_encode_roundtrip (m : dataMessage) :
  validMessage m = true -> Codec.decode (Codec.encode m) = Codec.Decoded m.
Proof.
  intros Hv. apply andb_prop in Hv as [_ Hm].
  unfold Codec.decode.
  rewrite <- (app_nil_r (Codec.encode m)).
  now rewrite CodecFacts.decodeMessage_encode.
Qed.

Lemma decode_encode_roundtrip_witness :
  validMessage (mkMessage SYNC_LEFT "server1" "server0"
                  (RosterBody ["alice"; "bob"]%string)) = true
  /\ Codec.decode
       (Codec.encode (mkMessage SYNC_LEFT "server1" "server0"
                        (RosterBody ["alice"; "bob"]%string)))
     = Codec.Decoded (mkMessage SYNC_LEFT "server1" "server0"
                        (RosterBody ["alice"; "bob"]%string)).
Proof.
  split; [reflexivity | apply decode_encode_roundtrip; reflexivity].
Defined.

(** ** Facts about the loops of [relayUDP] *)

Section RelayFacts.

Context {K : Constants} {W : Wire}.

Local Open Scope string_scope.
Local Open Scope list_scope.

(** The broadcast loop sends to the clients that pass the source test, in
    list order. *)
Lemma broadcastLoop_filter (m : dataMessage) (clients : list remoteConnection) :
  broadcastLoop m clients
  = map (fun c => SendTo (viewEndpoint c) (asCharVector m))
      (filter (fun c => negb (viewIdentifier c =? viewSourceIdentifier m))
         clients).
Proof.
  induction clients as [|c rest IH]; [reflexivity|].
  cbn [broadcastLoop filter].
  destruct (negb (viewIdentifier c =? viewSourceIdentifier m));
    cbn [map]; now rewrite IH.
Qed.

(** A roster loop finds the destination exactly when the roster holds
    it. *)
Lemma rosterLoop_In (destination : string) (roster : list string) :
  rosterLoop destination roster = true <-> In destination roster.
Proof.
  induction roster as [|x rest IH]; cbn [rosterLoop In].
  - split; [discriminate | contradiction].
  - destruct (x =? destination) eqn:E.
    + apply String.eqb_eq in E. tauto.
    + apply String.eqb_neq in E. rewrite IH. tauto.
Qed.

Lemma rosterLoop_absent (destination : string) (roster : list string) :
  ~ In destination roster -> rosterLoop destination roster = false.
Proof.
  intros Hn. destruct (rosterLoop destination roster) eqn:E; [|reflexivity].
  apply rosterLoop_In in E. contradiction.
Qed.

(** The direct loop falls through exactly when no connected client has
    the destination as its identifier. *)
Lemma directLoop_absent (m : dataMessage) (clients : list remoteConnection) :
  ~ In (viewDestinationIdentifier m) (map viewIdentifier clients) ->
  directLoop m clients = None.
Proof.
  induction clients as [|c rest IH]; cbn [directLoop map In];
    [reflexivity|].
  intros Hn. destruct (viewIdentifier c =? viewDestinationIdentifier m) eqn:E.
  - apply String.eqb_eq in E. tauto.
  - apply IH. tauto.
Qed.

(** When a connected client has the destination as its identifier, the
    direct loop sends once, to the first such client. *)
Lemma directLoop_present (m : dataMessage) (clients : list remoteConnection) :
  In (viewDestinationIdentifier m) (map viewIdentifier clients) ->
  exists before c after,
    clients = before ++ c :: after
    /\ ~ In (viewDestinationIdentifier m) (map viewIdentifier before)
    /\ viewIdentifier c = viewDestinationIdentifier m
    /\ directLoop m clients
       = Some [SendTo (viewEndpoint c) (asCharVector m)].
Proof.
  induction clients as [|x rest IH]; cbn [directLoop map In];
    [contradiction|].
  intros Hin. destruct (viewIdentifier x =? viewDestinationIdentifier m) eqn:E.
  - apply String.eqb_eq in E.
    exists [], x, rest. cbn [app map In]. tauto.
  - apply String.eqb_neq in E.
    destruct Hin as [Hx | Hin]; [contradiction|].
    destruct (IH Hin) as (before & c & after & Hsplit & Hnone & Hid & Hsend).
    exists (x :: before), c, after. subst rest.
    cbn [app map In]. repeat split; try assumption.
    intros [Hx | Hb]; [contradiction | now apply Hnone].
Qed.

Lemma sendTargets_broadcastLoop (m : dataMessage)
  (clients : list remoteConnection) :
  incl (sendTargets (broadcastLoop m clients)) (map viewEndpoint clients).
Proof.
  induction clients as [|c rest IH]; cbn [broadcastLoop map].
  - apply incl_nil_l.
  - destruct (negb (viewIdentifier c =? viewSourceIdentifier m)).
    + cbn [sendTargets flat_map app]. apply incl_cons.
      * now left.
      * now apply incl_tl.
    + now apply incl_tl.
Qed.

End RelayFacts.

(** ** Routing *)

Section Routing.

Context {K : Constants} {W : Wire}.

Local Open Scope string_scope.
Local Open Scope list_scope.

(** C5. For every message whose destination is the literal "broadcast",
    and every client list, [relayUDP] sends the message to exactly the
    connected clients whose identifier differs from the source of the
    message, once each and in list order; no entry carrying the sender's
    identifier is sent to. *)
Theorem relayUDP_broadcast_excludes_sender (m : dataMessage) (s : server) :
  viewDestinationIdentifier m = "broadcast" ->
  relayUDP m s
  = Ok (map (fun c => SendTo (viewEndpoint c) (asCharVector m))
          (filter
             (fun c => negb (viewIdentifier c =? viewSourceIdentifier m))
             (m_connectedClients s))).
Proof.
  intros Hb. unfold relayUDP. rewrite Hb, String.eqb_refl.
  now rewrite broadcastLoop_filter.
Qed.

(** C9, as amended.  For every message whose destination is
    "broadcast", every send of [relayUDP] goes to an endpoint stored in
    the client list, and the sends are the same whatever the two rosters
    and the two neighbour connections hold: neither is consulted.  The
    endpoint of a neighbour connection gets the broadcast only when the
    client list holds that endpoint too. *)
Theorem relayUDP_broadcast_stays_local (m : dataMessage) (s : server) :
  viewDestinationIdentifier m = "broadcast" ->
  exists sent,
    relayUDP m s = Ok sent
    /\ incl (sendTargets sent) (map viewEndpoint (m_connectedClients s))
    /\ Forall (fun e => exists c, In c (m_connectedClients s)
                 /\ e = SendTo (viewEndpoint c) (asCharVector m)) sent
    /\ (forall s', m_connectedClients s' = m_connectedClients s ->
                   relayUDP m s' = Ok sent)
    /\ (forall ep, In ep (neighbourEndpoints s) ->
                   ~ In ep (map viewEndpoint (m_connectedClients s)) ->
                   ~ In ep (sendTargets sent)).
Proof.
  intros Hb. exists (broadcastLoop m (m_connectedClients s)).
  assert (Hrun : forall s0, relayUDP m s0
                   = Ok (broadcastLoop m (m_connectedClients s0))).
  { intros s0. unfold relayUDP. rewrite Hb. now rewrite String.eqb_refl. }
  repeat split.
  - apply Hrun.
  - apply sendTargets_broadcastLoop.
  - rewrite broadcastLoop_filter. apply Forall_forall.
    intros e He. apply in_map_iff in He as (c & <- & Hc).
    apply filter_In in Hc as [Hc _]. now exists c.
  - intros s' Hs'. now rewrite Hrun, Hs'.
  - intros ep _ Hnot Hin. apply Hnot.
    now apply (sendTargets_broadcastLoop m (m_connectedClients s)).
Qed.


(** C7. For every unicast message whose destination is in none of the
    client list, the left roster and the right roster, [relayUDP] sends
    nothing: its only effect is the line of server.cpp, line 263, on
    [std::cout], which reads: Message dropped. Client, the destination
    between double quotes (character 34), was not found.  Nothing goes
    back to the sender. *)
Theorem relayUDP_unknown_destination_dropped (m : dataMessage) (s : server) :
  viewDestinationIdentifier m <> "broadcast" ->
  ~ In (viewDestinationIdentifier m)
       (map viewIdentifier (m_connectedClients s)) ->
  ~ In (viewDestinationIdentifier m)
       (m_leftAdjacentServerConnectedClients s) ->
  ~ In (viewDestinationIdentifier m)
       (m_rightAdjacentServerConnectedClients s) ->
  exists produced,
    relayUDP m s = Ok produced
    /\ produced
       = [Cout ("Message dropped. Client "
                  ++ String (ascii_of_nat 34)
                       (viewDestinationIdentifier m
                          ++ String (ascii_of_nat 34) " was not found."))]
    /\ sendTargets produced = [].
Proof.
  intros Hnb Hc Hl Hr.
  exists [messageDropped (viewDestinationIdentifier m)].
  repeat split.
  apply String.eqb_neq in Hnb.
  unfold relayUDP, checkLeftAdjacentServer, checkRightAdjacentServer.
  rewrite Hnb, (directLoop_absent m _ Hc).
  rewrite (rosterLoop_absent _ _ Hl), (rosterLoop_absent _ _ Hr).
  now destruct (m_leftAdjacentServerConnection s).
Qed.

(** What the unicast branch does by the left roster (not a numbered
    claim): with a left connection and the destination in the left
    roster, one send to the left neighbour and nothing else. *)
Lemma relayUDP_left_roster (m : dataMessage) (s : server)
  (leftConnection : remoteConnection) :
  viewDestinationIdentifier m <> "broadcast" ->
  ~ In (viewDestinationIdentifier m)
       (map viewIdentifier (m_connectedClients s)) ->
  m_leftAdjacentServerConnection s = Some leftConnection ->
  In (viewDestinationIdentifier m) (m_leftAdjacentServerConnectedClients s) ->
  relayUDP m s = Ok [SendTo (viewEndpoint leftConnection) (asCharVector m)].
Proof.
  intros Hnb Hc Hconn Hl.
  apply String.eqb_neq in Hnb. apply rosterLoop_In in Hl.
  unfold relayUDP, checkLeftAdjacentServer.
  now rewrite Hnb, (directLoop_absent m _ Hc), Hconn, Hl.
Qed.

(** The right roster is looked at exactly when the left connection is
    there: without one, a destination that is not local is dropped,
    whatever the right connection and the right roster hold. *)
Lemma relayUDP_without_left_connection (m : dataMessage) (s : server) :
  viewDestinationIdentifier m <> "broadcast" ->
  ~ In (viewDestinationIdentifier m)
       (map viewIdentifier (m_connectedClients s)) ->
  m_leftAdjacentServerConnection s = None ->
  relayUDP m s = Ok [messageDropped (viewDestinationIdentifier m)].
Proof.
  intros Hnb Hc Hconn.
  apply String.eqb_neq in Hnb.
  unfold relayUDP, checkLeftAdjacentServer, checkRightAdjacentServer.
  now rewrite Hnb, (directLoop_absent m _ Hc), Hconn.
Qed.

End Routing.

(** ** The registry *)

Section Registry.

Local Open Scope string_scope.
Local Open Scope list_scope.

(** Where the code and the words of the specification meet: when the
    first client is the one that leaves, or no client has the name. *)
Lemma removeClientConnection_head_or_absent
  (inClientUsername : string) (s : server) :
  (forall c rest, m_connectedClients s = c :: rest ->
                  viewIdentifier c = inClientUsername
                  \/ ~ In inClientUsername (map viewIdentifier rest)) ->
  m_connectedClients (removeClientConnection inClientUsername s)
  = removeFirstMatching inClientUsername (m_connectedClients s).
Proof.
  unfold removeClientConnection.
  destruct (m_connectedClients s) as [|c rest] eqn:E; intros H;
    [now rewrite E|].
  cbn [removeFirstMatching].
  destruct (viewIdentifier c =? inClientUsername) eqn:Eid; [reflexivity|].
  rewrite E. f_equal.
  apply String.eqb_neq in Eid.
  destruct (H c rest eq_refl) as [Hc | Hrest]; [contradiction|].
  clear - Hrest. induction rest as [|x rest IH]; [reflexivity|].
  cbn [removeFirstMatching map In] in *.
  destruct (viewIdentifier x =? inClientUsername) eqn:Ex.
  - apply String.eqb_eq in Ex. tauto.
  - f_equal. apply IH. tauto.
Qed.

(** C10. Every call of [removeClientConnection] removes at most one
    element of the client list; the elements that stay keep their
    identifier, their endpoint and their order; the rosters, the
    neighbour connections, the indices and the queue are not touched. *)
Theorem removeClientConnection_frame
  (inClientUsername : string) (s : server) :
  (m_connectedClients (removeClientConnection inClientUsername s)
   = m_connectedClients s
   \/ exists before removed after,
        m_connectedClients s = before ++ removed :: after
        /\ viewIdentifier removed = inClientUsername
        /\ m_connectedClients (removeClientConnection inClientUsername s)
           = before ++ after)
  /\ sameButClients s (removeClientConnection inClientUsername s).
Proof.
  unfold removeClientConnection.
  destruct (m_connectedClients s) as [|c rest] eqn:E.
  - split; [now left | now repeat split].
  - destruct (viewIdentifier c =? inClientUsername) eqn:Eid.
    + split; [|now repeat split].
      right. exists [], c, rest. apply String.eqb_eq in Eid.
      now repeat split.
    + split; [now left | now repeat split].
Qed.

(** C4. For every received sync message: a SYNC_LEFT message makes the
    right roster equal to the identifier list of the message, a
    SYNC_RIGHT message does so to the left roster; nothing of the old
    roster of that side stays (an empty list empties it), the roster of
    the other side, the client list, the connections and the queue stay
    as they were, and the message is not queued. *)
Theorem sync_replaces_roster
  (message : dataMessage) (clientEndpoint : endpoint) (s : server) :
  viewMessageType message = SYNC_LEFT
  \/ viewMessageType message = SYNC_RIGHT ->
  exists s',
    listenLoop message clientEndpoint s = Ok s'
    /\ receiveClientsFromAdjacentServers message s = Ok s'
    /\ sameButRosters s s'
    /\ (viewMessageType message = SYNC_LEFT ->
        m_rightAdjacentServerConnectedClients s'
        = viewServerSyncPayload message
        /\ m_leftAdjacentServerConnectedClients s'
           = m_leftAdjacentServerConnectedClients s)
    /\ (viewMessageType message = SYNC_RIGHT ->
        m_leftAdjacentServerConnectedClients s'
        = viewServerSyncPayload message
        /\ m_rightAdjacentServerConnectedClients s'
           = m_rightAdjacentServerConnectedClients s).
Proof.
  unfold listenLoop, receiveClientsFromAdjacentServers.
  intros [Ht | Ht]; rewrite Ht.
  - exists (set_rightRoster (viewServerSyncPayload message) s).
    repeat split; try reflexivity; discriminate.
  - exists (set_leftRoster (viewServerSyncPayload message) s).
    repeat split; try reflexivity; discriminate.
Qed.

End Registry.

(** ** Neighbour connections *)

Section NeighbourSync.

Context {K : Constants} {W : Wire}.

Lemma listenLoop_connections
  (message : dataMessage) (clientEndpoint : endpoint) (s s' : server) :
  listenLoop message clientEndpoint s = Ok s' ->
  m_leftAdjacentServerIndex s' = m_leftAdjacentServerIndex s
  /\ m_rightAdjacentServerIndex s' = m_rightAdjacentServerIndex s
  /\ m_leftAdjacentServerConnection s' = m_leftAdjacentServerConnection s
  /\ m_rightAdjacentServerConnection s' = m_rightAdjacentServerConnection s.
Proof.
  unfold listenLoop, receiveClientsFromAdjacentServers, removeClientConnection.
  destruct (viewMessageType message); intros [= <-];
    try (now repeat split).
  destruct (m_connectedClients s) as [|c rest]; [now repeat split|].
  destruct (String.eqb (viewIdentifier c) (viewSourceIdentifier message));
    now repeat split.
Qed.

Lemma relayLoop_connections (s s' : server) (events : list event) :
  relayLoop s = Ok (s', events) ->
  m_leftAdjacentServerIndex s' = m_leftAdjacentServerIndex s
  /\ m_rightAdjacentServerIndex s' = m_rightAdjacentServerIndex s
  /\ m_leftAdjacentServerConnection s' = m_leftAdjacentServerConnection s
  /\ m_rightAdjacentServerConnection s' = m_rightAdjacentServerConnection s.
Proof.
  unfold relayLoop. destruct (m_messageQueue s) as [|m rest].
  - intros [= <- _]. now repeat split.
  - destruct (relayUDP m s); intros [= <- _]. now repeat split.
Qed.

(** The left half of a sync iteration, case by case. *)
Lemma maintainLeft_cases (net : network) (s : server) :
  let s' := fst (maintainLeft net s) in
  m_leftAdjacentServerIndex s' = m_leftAdjacentServerIndex s
  /\ m_rightAdjacentServerIndex s' = m_rightAdjacentServerIndex s
  /\ m_rightAdjacentServerConnection s' = m_rightAdjacentServerConnection s
  /\ (forall c, m_leftAdjacentServerConnection s = Some c ->
                m_leftAdjacentServerConnection s' = Some c)
  /\ (leftAdjacentServerIndexIsValid (m_leftAdjacentServerIndex s) = false ->
      maintainLeft net s = (s, []))
  /\ (m_leftAdjacentServerConnection s' = None ->
      m_leftAdjacentServerConnection s = None
      /\ (leftAdjacentServerIndexIsValid (m_leftAdjacentServerIndex s) = true ->
          resolve net (serverHostName (m_leftAdjacentServerIndex s))
            (to_string (serverListeningPorts (m_leftAdjacentServerIndex s)))
          = None)).
Proof.
  unfold maintainLeft.
  destruct (leftAdjacentServerIndexIsValid (m_leftAdjacentServerIndex s)).
  - destruct (m_leftAdjacentServerConnection s) as [c|] eqn:Ec.
    + destruct (sendThrows net _ _); cbn [fst]; rewrite Ec;
        repeat split; try discriminate; auto.
    + destruct (resolve net _ _) eqn:Er; cbn [fst set_leftConnection
        m_leftAdjacentServerIndex m_rightAdjacentServerIndex
        m_leftAdjacentServerConnection m_rightAdjacentServerConnection];
        repeat split; try discriminate; auto.
  - cbn [fst]. repeat split; auto; try discriminate.
Qed.

(** The right half, case by case. *)
Lemma maintainRight_cases (net : network) (s : server) :
  let s' := fst (maintainRight net s) in
  m_leftAdjacentServerIndex s' = m_leftAdjacentServerIndex s
  /\ m_rightAdjacentServerIndex s' = m_rightAdjacentServerIndex s
  /\ m_leftAdjacentServerConnection s' = m_leftAdjacentServerConnection s
  /\ (forall c, m_rightAdjacentServerConnection s = Some c ->
                m_rightAdjacentServerConnection s' = Some c)
  /\ (rightAdjacentServerIndexIsValid (m_rightAdjacentServerIndex s) = false ->
      maintainRight net s = (s, []))
  /\ (m_rightAdjacentServerConnection s' = None ->
      m_rightAdjacentServerConnection s = None
      /\ (rightAdjacentServerIndexIsValid (m_rightAdjacentServerIndex s) = true ->
          resolve net (serverHostName (m_rightAdjacentServerIndex s))
            (to_string (serverListeningPorts (m_rightAdjacentServerIndex s)))
          = None)).
Proof.
  unfold maintainRight.
  destruct (rightAdjacentServerIndexIsValid (m_rightAdjacentServerIndex s)).
  - destruct (m_rightAdjacentServerConnection s) as [c|] eqn:Ec.
    + destruct (sendThrows net _ _); cbn [fst]; rewrite Ec;
        repeat split; try discriminate; auto.
    + destruct (resolve net _ _) eqn:Er; cbn [fst set_rightConnection
        m_leftAdjacentServerIndex m_rightAdjacentServerIndex
        m_leftAdjacentServerConnection m_rightAdjacentServerConnection];
        repeat split; try discriminate; auto.
  - cbn [fst]. repeat split; auto; try discriminate.
Qed.

Lemma fst_maintainToAdjacentServers (net : network) (s : server) :
  fst (maintainToAdjacentServers net s)
  = fst (maintainRight net (fst (maintainLeft net s))).
Proof.
  unfold maintainToAdjacentServers.
  destruct (maintainLeft net s) as [s1 e1]. cbn [fst].
  now destruct (maintainRight net s1).
Qed.

Lemma slotsKept_refl (s : server) : slotsKept s s.
Proof. unfold slotsKept. now repeat split. Qed.

Lemma slotsKept_trans (s1 s2 s3 : server) :
  slotsKept s1 s2 -> slotsKept s2 s3 -> slotsKept s1 s3.
Proof.
  unfold slotsKept.
  intros (Hl & Hr & Hcl & Hcr & Hil & Hir) (Hl' & Hr' & Hcl' & Hcr' & Hil' & Hir').
  rewrite Hl', Hr', Hl, Hr in *.
  repeat split; auto.
  - intros Hv. now rewrite (Hil' Hv), (Hil Hv).
  - intros Hv. now rewrite (Hir' Hv), (Hir Hv).
Qed.

Lemma slotsKept_same (s s' : server) :
  m_leftAdjacentServerIndex s' = m_leftAdjacentServerIndex s
  /\ m_rightAdjacentServerIndex s' = m_rightAdjacentServerIndex s
  /\ m_leftAdjacentServerConnection s' = m_leftAdjacentServerConnection s
  /\ m_rightAdjacentServerConnection s' = m_rightAdjacentServerConnection s ->
  slotsKept s s'.
Proof.
  intros (Hl & Hr & Hcl & Hcr). unfold slotsKept.
  rewrite Hcl, Hcr. now repeat split.
Qed.

Lemma maintainLeft_slotsKept (net : network) (s : server) :
  slotsKept s (fst (maintainLeft net s)).
Proof.
  destruct (maintainLeft_cases net s) as (Hl & Hr & Hcr & Hcl & Hinv & _).
  unfold slotsKept. rewrite Hcr. repeat split; auto.
  intros Hv. now rewrite (Hinv Hv).
Qed.

Lemma maintainRight_slotsKept (net : network) (s : server) :
  slotsKept s (fst (maintainRight net s)).
Proof.
  destruct (maintainRight_cases net s) as (Hl & Hr & Hcl & Hcr & Hinv & _).
  unfold slotsKept. rewrite Hcl. repeat split; auto.
  intros Hv. now rewrite (Hinv Hv).
Qed.

Lemma maintainToAdjacentServers_slotsKept (net : network) (s : server) :
  slotsKept s (fst (maintainToAdjacentServers net s)).
Proof.
  rewrite fst_maintainToAdjacentServers.
  eapply slotsKept_trans;
    [apply maintainLeft_slotsKept | apply maintainRight_slotsKept].
Qed.

Lemma step_slotsKept (a : action) (s s' : server) (events : list event) :
  step a s = Ok (s', events) -> slotsKept s s'.
Proof.
  destruct a as [message clientEndpoint | | net]; cbn [step].
  - destruct (listenLoop message clientEndpoint s) as [s1|] eqn:E;
      intros [= <- _].
    apply slotsKept_same. eapply listenLoop_connections, E.
  - intros E. apply slotsKept_same. eapply relayLoop_connections, E.
  - intros [= E].
    replace s' with (fst (maintainToAdjacentServers net s)) by now rewrite E.
    apply maintainToAdjacentServers_slotsKept.
Qed.

(** By induction on the execution. *)
Lemma run_slotsKept (actions : list action) (s : server) :
  slotsKept s (fst (run actions s)).
Proof.
  revert s. induction actions as [|a rest IH]; intros s; cbn [run].
  - apply slotsKept_refl.
  - destruct (step a s) as [[s' events]|] eqn:E.
    + specialize (IH s'). destruct (run rest s') as [s'' later]. cbn [fst] in *.
      eapply slotsKept_trans; [eapply step_slotsKept, E | exact IH].
    + apply slotsKept_refl.
Qed.

(** C8. For both neighbour slots and every iteration of the sync loop: a
    connected slot stays connected, whether or not the send of the sync
    message throws, after one iteration and after any execution of the
    three loops; a slot is absent after an iteration only if it was
    absent before and, when its position is valid, the resolution of that
    iteration failed; a slot that is absent and whose position is not
    valid is absent after any execution, and the sync loop does nothing
    for that side (no resolution, no send) in the state reached. *)
Theorem neighbour_slot_transitions
  (net : network) (actions : list action) (s : server) :
  let s1 := fst (maintainToAdjacentServers net s) in
  let sn := fst (run actions s) in
  (forall c, m_leftAdjacentServerConnection s = Some c ->
     m_leftAdjacentServerConnection s1 = Some c
     /\ m_leftAdjacentServerConnection sn = Some c)
  /\ (forall c, m_rightAdjacentServerConnection s = Some c ->
        m_rightAdjacentServerConnection s1 = Some c
        /\ m_rightAdjacentServerConnection sn = Some c)
  /\ (m_leftAdjacentServerConnection s1 = None ->
      m_leftAdjacentServerConnection s = None
      /\ (leftAdjacentServerIndexIsValid (m_leftAdjacentServerIndex s) = true ->
          resolve net (serverHostName (m_leftAdjacentServerIndex s))
            (to_string (serverListeningPorts (m_leftAdjacentServerIndex s)))
          = None))
  /\ (m_rightAdjacentServerConnection s1 = None ->
      m_rightAdjacentServerConnection s = None
      /\ (rightAdjacentServerIndexIsValid (m_rightAdjacentServerIndex s) = true ->
          resolve net (serverHostName (m_rightAdjacentServerIndex s))
            (to_string (serverListeningPorts (m_rightAdjacentServerIndex s)))
          = None))
  /\ (leftAdjacentServerIndexIsValid (m_leftAdjacentServerIndex s) = false ->
      m_leftAdjacentServerConnection s = None ->
      m_leftAdjacentServerConnection sn = None
      /\ forall net', maintainLeft net' sn = (sn, []))
  /\ (rightAdjacentServerIndexIsValid (m_rightAdjacentServerIndex s) = false ->
      m_rightAdjacentServerConnection s = None ->
      m_rightAdjacentServerConnection sn = None
      /\ forall net', maintainRight net' sn = (sn, [])).
Proof.
  intros s1 sn.
  pose proof (maintainToAdjacentServers_slotsKept net s) as H1.
  pose proof (run_slotsKept actions s) as Hn.
  fold s1 in H1. fold sn in Hn.
  destruct H1 as (Hl1 & Hr1 & Hcl1 & Hcr1 & _ & _).
  destruct Hn as (Hln & Hrn & Hcln & Hcrn & Hiln & Hirn).
  repeat apply conj.
  - intros c Hc. split; auto.
  - intros c Hc. split; auto.
  - intros Hnone. subst s1. rewrite fst_maintainToAdjacentServers in Hnone.
    destruct (maintainRight_cases net (fst (maintainLeft net s)))
      as (_ & _ & Hsame & _).
    rewrite Hsame in Hnone.
    now apply (maintainLeft_cases net s).
  - intros Hnone. subst s1. rewrite fst_maintainToAdjacentServers in Hnone.
    destruct (maintainRight_cases net (fst (maintainLeft net s)))
      as (_ & _ & _ & _ & _ & Hres).
    destruct (maintainLeft_cases net s) as (_ & Hidx & Hconn & _).
    rewrite Hidx, Hconn in Hres. now apply Hres.
  - intros Hinv Hnone. split.
    + now rewrite (Hiln Hinv).
    + intros net'. apply (maintainLeft_cases net' sn). now rewrite Hln.
  - intros Hinv Hnone. split.
    + now rewrite (Hirn Hinv).
    + intros net'. apply (maintainRight_cases net' sn). now rewrite Hrn.
Qed.

End NeighbourSync.

(** ** The code on the concrete chain *)

Section Evaluations.

Local Open Scope string_scope.
Local Open Scope list_scope.

(** C1. The guard of the right-roster search tests the left connection.
    On the leftmost server (no left connection, right neighbour
    connected, "erin" in the right roster) a message for "erin" is
    dropped instead of being sent to the right neighbour; on a server
    with a left connection, no right connection and "erin" in the right
    roster, the search runs and the send dereferences the null right
    connection. *)
Theorem relayUDP_right_search_guarded_by_left_connection :
  m_leftAdjacentServerConnection leftmostServer = None
  /\ m_rightAdjacentServerConnection leftmostServer
     = Some (mkConnection "server1" (mkEndpoint 2130706433 8081))
  /\ m_connectedClients leftmostServer = [alice]
  /\ m_leftAdjacentServerConnectedClients leftmostServer = []
  /\ m_rightAdjacentServerConnectedClients leftmostServer = ["erin"]
  /\ relayUDP (W:=codecWire) (chat "alice" "erin" "hi") leftmostServer
     = Ok [messageDropped "erin"]
  /\ m_rightAdjacentServerConnection rightUnresolvedServer = None
  /\ relayUDP (W:=codecWire) (chat "alice" "erin" "hi") rightUnresolvedServer
     = Fault NullPointerDereference.
Proof. repeat split; vm_compute; reflexivity. Qed.

(** C2. A Disconnect from "bob", second of the three connected clients,
    leaves the client list as it was: the loop of
    [removeClientConnection] ends after the first entry.  Removing the
    first entry with that identifier would leave "alice" and "carol". *)
Theorem removeClientConnection_stops_after_first_entry :
  m_connectedClients middleServer = [alice; bob; carol]
  /\ listenLoop
       (mkMessage DISCONNECT "bob" "broadcast" (TextBody EmptyString))
       (viewEndpoint bob) middleServer
     = Ok (addToMessageQueue
             (mkMessage DISCONNECT "bob" "broadcast" (TextBody EmptyString))
             (removeClientConnection "bob" middleServer))
  /\ m_connectedClients (removeClientConnection "bob" middleServer)
     = [alice; bob; carol]
  /\ removeFirstMatching "bob" (m_connectedClients middleServer)
     = [alice; carol].
Proof. repeat split. Qed.

End Evaluations.

(** ** Instances on the concrete chain *)

Section Witnesses.

Local Open Scope string_scope.
Local Open Scope list_scope.

Lemma sync_replaces_roster_witness :
  (viewMessageType (mkMessage SYNC_LEFT "server2" "server1" (RosterBody []))
   = SYNC_LEFT
   \/ viewMessageType (mkMessage SYNC_LEFT "server2" "server1" (RosterBody []))
      = SYNC_RIGHT)
  /\ m_rightAdjacentServerConnectedClients middleServer = ["erin"]
  /\ exists s',
       listenLoop (mkMessage SYNC_LEFT "server2" "server1" (RosterBody []))
         (viewEndpoint rightServer) middleServer = Ok s'
       /\ m_rightAdjacentServerConnectedClients s' = []
       /\ m_leftAdjacentServerConnectedClients s' = ["dave"]
       /\ m_messageQueue s' = [].
Proof.
  split; [now left|]. split; [reflexivity|].
  destruct (sync_replaces_roster
              (mkMessage SYNC_LEFT "server2" "server1" (RosterBody []))
              (viewEndpoint rightServer) middleServer
              (or_introl eq_refl))
    as (s' & Hlisten & _ & Hframe & Hleft & _).
  exists s'. split; [exact Hlisten|].
  destruct (Hleft eq_refl) as [Hr Hl].
  destruct Hframe as [(_ & _ & _ & _ & _ & _ & Hq) _].
  split; [exact Hr|]. split; [exact Hl | exact Hq].
Defined.

Lemma relayUDP_broadcast_excludes_sender_witness :
  viewDestinationIdentifier (chat "alice" "broadcast" "hello") = "broadcast"
  /\ relayUDP (W:=codecWire) (chat "alice" "broadcast" "hello") middleServer
     = Ok [SendTo (viewEndpoint bob)
             (Codec.encode (chat "alice" "broadcast" "hello"));
           SendTo (viewEndpoint carol)
             (Codec.encode (chat "alice" "broadcast" "hello"))].
Proof.
  split; [reflexivity|].
  exact (relayUDP_broadcast_excludes_sender (W:=codecWire)
           (chat "alice" "broadcast" "hello") middleServer eq_refl).
Defined.

Lemma relayUDP_broadcast_stays_local_witness :
  viewDestinationIdentifier (chat "alice" "broadcast" "hello") = "broadcast"
  /\ exists sent,
       relayUDP (W:=codecWire) (chat "alice" "broadcast" "hello") middleServer
       = Ok sent
       /\ incl (sendTargets sent) [viewEndpoint alice; viewEndpoint bob;
                                   viewEndpoint carol]
       /\ relayUDP (W:=codecWire) (chat "alice" "broadcast" "hello")
            (set_leftRoster ["bob"] (set_rightConnection None middleServer))
          = Ok sent.
Proof.
  split; [reflexivity|].
  destruct (relayUDP_broadcast_stays_local (W:=codecWire)
              (chat "alice" "broadcast" "hello") middleServer eq_refl)
    as (sent & Hrun & Hincl & _ & Hany & _).
  exists sent. split; [exact Hrun|]. split; [exact Hincl|].
  apply Hany. reflexivity.
Defined.


Lemma relayUDP_unknown_destination_dropped_witness :
  viewDestinationIdentifier (chat "alice" "zoe" "hello") <> "broadcast"
  /\ ~ In "zoe" (map viewIdentifier (m_connectedClients middleServer))
  /\ ~ In "zoe" (m_leftAdjacentServerConnectedClients middleServer)
  /\ ~ In "zoe" (m_rightAdjacentServerConnectedClients middleServer)
  /\ exists produced,
       relayUDP (W:=codecWire) (chat "alice" "zoe" "hello") middleServer
       = Ok produced
       /\ produced
          = [Cout ("Message dropped. Client "
                     ++ String (ascii_of_nat 34)
                          ("zoe"
                             ++ String (ascii_of_nat 34) " was not found."))]
       /\ sendTargets produced = [].
Proof.
  assert (Hnb : viewDestinationIdentifier (chat "alice" "zoe" "hello")
                <> "broadcast") by discriminate.
  assert (Hc : ~ In "zoe"
                 (map viewIdentifier (m_connectedClients middleServer)))
    by (cbn; intros [H | [H | [H | []]]]; discriminate H).
  assert (Hl : ~ In "zoe" (m_leftAdjacentServerConnectedClients middleServer))
    by (cbn; intros [H | []]; discriminate H).
  assert (Hr : ~ In "zoe" (m_rightAdjacentServerConnectedClients middleServer))
    by (cbn; intros [H | []]; discriminate H).
  repeat (split; [assumption|]).
  exact (relayUDP_unknown_destination_dropped (W:=codecWire)
           (chat "alice" "zoe" "hello") middleServer Hnb Hc Hl Hr).
Defined.

(** The leftmost server: its left position is not valid, and the slot is
    absent after the execution; the middle server with the network down:
    both slots stay connected although every send throws. *)
Lemma neighbour_slot_transitions_witness :
  (m_leftAdjacentServerConnection middleServer = Some leftServer
   /\ sendThrows networkDown (viewEndpoint leftServer) [] = true
   /\ m_leftAdjacentServerConnection
        (fst (maintainToAdjacentServers (K:=chainOfThree) (W:=codecWire)
                networkDown middleServer))
      = Some leftServer)
  /\ (leftAdjacentServerIndexIsValid (Constants:=chainOfThree)
        (m_leftAdjacentServerIndex (newServer 0)) = false
      /\ m_leftAdjacentServerConnection (newServer 0) = None
      /\ m_leftAdjacentServerConnection
           (fst (run (K:=chainOfThree) (W:=codecWire) leftmostActions
                   (newServer 0)))
         = None).
Proof.
  split.
  - split; [reflexivity|]. split; [reflexivity|].
    apply (neighbour_slot_transitions (K:=chainOfThree) (W:=codecWire)
             networkDown [] middleServer).
    reflexivity.
  - split; [reflexivity|]. split; [reflexivity|].
    apply (neighbour_slot_transitions (K:=chainOfThree) (W:=codecWire)
             networkDown leftmostActions (newServer 0));
      reflexivity.
Defined.

End Witnesses.

(* ================================================================= *)
(** * Part III. Further properties of the server *)
(* ================================================================= *)

(** ** More on [relayUDP] *)

Section RelayMore.

Context {K : Constants} {W : Wire}.

Local Open Scope string_scope.
Local Open Scope list_scope.

Lemma directLoop_app (m : dataMessage) (l1 l2 : list remoteConnection) :
  directLoop m (l1 ++ l2)
  = match directLoop m l1 with
    | Some sent => Some sent
    | None => directLoop m l2
    end.
Proof.
  induction l1 as [|c rest IH]; cbn [app directLoop]; [reflexivity|].
  now destruct (viewIdentifier c =? viewDestinationIdentifier m).
Qed.

Lemma directLoop_some (m : dataMessage) (clients : list remoteConnection)
  (sent : list event) :
  directLoop m clients = Some sent ->
  exists c, In c clients
            /\ viewIdentifier c = viewDestinationIdentifier m
            /\ sent = [SendTo (viewEndpoint c) (asCharVector m)].
Proof.
  induction clients as [|x rest IH]; cbn [directLoop]; [discriminate|].
  destruct (viewIdentifier x =? viewDestinationIdentifier m) eqn:E.
  - intros [= <-]. apply String.eqb_eq in E. exists x. cbn [In]. auto.
  - intros H. destruct (IH H) as (c & Hin & Hid & Hs).
    exists c. cbn [In]. auto.
Qed.

Lemma directLoop_none (m : dataMessage) (clients : list remoteConnection) :
  directLoop m clients = None ->
  ~ In (viewDestinationIdentifier m) (map viewIdentifier clients).
Proof.
  intros Hnone Hin.
  destruct (directLoop_present m clients Hin) as (? & ? & ? & _ & _ & _ & H).
  congruence.
Qed.

(** [relayUDP] returns whenever the left connection is absent or the
    right one is there. *)
Lemma relayUDP_returns (m : dataMessage) (s : server) :
  m_leftAdjacentServerConnection s = None
  \/ m_rightAdjacentServerConnection s <> None ->
  relayUDP m s = Ok (relayEvents m s).
Proof.
  intros Hrest. unfold relayEvents.
  destruct (relayUDP m s) as [events | f] eqn:E; [reflexivity|].
  exfalso. revert E.
  unfold relayUDP, checkLeftAdjacentServer, checkRightAdjacentServer.
  destruct (viewDestinationIdentifier m =? "broadcast"); [discriminate|].
  destruct (directLoop m (m_connectedClients s)); [discriminate|].
  destruct (m_leftAdjacentServerConnection s) as [l|]; [|discriminate].
  destruct (rosterLoop _ (m_leftAdjacentServerConnectedClients s));
    [discriminate|].
  destruct (rosterLoop _ (m_rightAdjacentServerConnectedClients s));
    [|discriminate].
  destruct (m_rightAdjacentServerConnection s); [discriminate|].
  destruct Hrest as [H | H]; [discriminate H | now elim H].
Qed.

(** The right fallback, when the left connection lets the search run:
    a destination that is neither local nor in the left roster, and is in
    the right roster, gets one send to the right neighbour. *)
Theorem relayUDP_right_roster (m : dataMessage) (s : server)
  (leftConnection rightConnection : remoteConnection) :
  viewDestinationIdentifier m <> "broadcast" ->
  ~ In (viewDestinationIdentifier m)
       (map viewIdentifier (m_connectedClients s)) ->
  m_leftAdjacentServerConnection s = Some leftConnection ->
  ~ In (viewDestinationIdentifier m) (m_leftAdjacentServerConnectedClients s) ->
  m_rightAdjacentServerConnection s = Some rightConnection ->
  In (viewDestinationIdentifier m) (m_rightAdjacentServerConnectedClients s) ->
  relayUDP m s = Ok [SendTo (viewEndpoint rightConnection) (asCharVector m)].
Proof.
  intros Hnb Hc Hl Hnl Hr Hin.
  apply String.eqb_neq in Hnb. apply rosterLoop_In in Hin.
  unfold relayUDP, checkLeftAdjacentServer, checkRightAdjacentServer.
  now rewrite Hnb, (directLoop_absent m _ Hc), Hl,
    (rosterLoop_absent _ _ Hnl), Hin, Hr.
Qed.

(** When [relayUDP] leaves defined behaviour: exactly for a unicast
    message whose destination is not local, with a left connection whose
    roster does not hold it, a right roster that holds it and no right
    connection; the fault is the null dereference. *)
Theorem relayUDP_fault_iff (m : dataMessage) (s : server) (f : fault) :
  relayUDP m s = Fault f
  <-> f = NullPointerDereference
      /\ viewDestinationIdentifier m <> "broadcast"
      /\ ~ In (viewDestinationIdentifier m)
              (map viewIdentifier (m_connectedClients s))
      /\ m_leftAdjacentServerConnection s <> None
      /\ ~ In (viewDestinationIdentifier m)
              (m_leftAdjacentServerConnectedClients s)
      /\ In (viewDestinationIdentifier m)
            (m_rightAdjacentServerConnectedClients s)
      /\ m_rightAdjacentServerConnection s = None.
Proof.
  split.
  - unfold relayUDP, checkLeftAdjacentServer, checkRightAdjacentServer.
    destruct (viewDestinationIdentifier m =? "broadcast") eqn:Eb;
      [discriminate|].
    destruct (directLoop m (m_connectedClients s)) eqn:Ed; [discriminate|].
    destruct (m_leftAdjacentServerConnection s) as [l|]; [|discriminate].
    destruct (rosterLoop _ (m_leftAdjacentServerConnectedClients s)) eqn:El;
      [discriminate|].
    destruct (rosterLoop _ (m_rightAdjacentServerConnectedClients s)) eqn:Er;
      [|discriminate].
    destruct (m_rightAdjacentServerConnection s); [discriminate|].
    intros [= <-].
    apply String.eqb_neq in Eb. apply directLoop_none in Ed.
    apply rosterLoop_In in Er.
    repeat split; try assumption; try discriminate.
    intros Hin. apply rosterLoop_In in Hin. congruence.
  - intros (-> & Hnb & Hc & Hl & Hnl & Hin & Hr).
    apply String.eqb_neq in Hnb. apply rosterLoop_In in Hin.
    unfold relayUDP, checkLeftAdjacentServer, checkRightAdjacentServer.
    rewrite Hnb, (directLoop_absent m _ Hc).
    destruct (m_leftAdjacentServerConnection s); [|now elim Hl].
    now rewrite (rosterLoop_absent _ _ Hnl), Hin, Hr.
Qed.

(** Where the datagrams of [relayUDP] go: only to endpoints of the
    client list and of the neighbour connections that are there; a
    unicast message gives exactly one event, so at most one datagram. *)
Theorem relayUDP_targets (m : dataMessage) (s : server)
  (events : list event) :
  relayUDP m s = Ok events ->
  incl (sendTargets events)
    (map viewEndpoint (m_connectedClients s) ++ neighbourEndpoints s)
  /\ (viewDestinationIdentifier m <> "broadcast" ->
      List.length events = 1%nat).
Proof.
  unfold relayUDP, checkLeftAdjacentServer, checkRightAdjacentServer,
    neighbourEndpoints.
  destruct (viewDestinationIdentifier m =? "broadcast") eqn:Eb.
  - intros [= <-]. split.
    + apply incl_appl, sendTargets_broadcastLoop.
    + apply String.eqb_eq in Eb. congruence.
  - destruct (directLoop m (m_connectedClients s)) as [sent|] eqn:Ed.
    + intros [= <-].
      destruct (directLoop_some _ _ Ed) as (c & Hin & _ & ->).
      split; [|reflexivity].
      cbn [sendTargets flat_map app]. apply incl_cons; [|apply incl_nil_l].
      apply in_or_app. left. now apply in_map.
    + destruct (m_leftAdjacentServerConnection s) as [l|].
      * destruct (rosterLoop _ (m_leftAdjacentServerConnectedClients s)).
        { intros [= <-]. split; [|reflexivity].
          cbn [sendTargets flat_map app]. apply incl_cons; [|apply incl_nil_l].
          apply in_or_app. right. now left. }
        destruct (rosterLoop _ (m_rightAdjacentServerConnectedClients s)).
        { destruct (m_rightAdjacentServerConnection s) as [r|];
            [|discriminate].
          intros [= <-]. split; [|reflexivity].
          cbn [sendTargets flat_map app]. apply incl_cons; [|apply incl_nil_l].
          apply in_or_app. right. right. now left. }
        intros [= <-]. split; [apply incl_nil_l | reflexivity].
      * intros [= <-]. split; [apply incl_nil_l | reflexivity].
Qed.

(** Connecting and then addressing: a unicast message for a name that
    was not connected goes to the endpoint just registered; when the
    name was connected already, the new registration changes nothing for
    the message (the older entry is found first). *)
Theorem relayUDP_after_addClientConnection
  (m : dataMessage) (inClientEndpoint : endpoint) (s : server) :
  viewDestinationIdentifier m <> "broadcast" ->
  (~ In (viewDestinationIdentifier m)
        (map viewIdentifier (m_connectedClients s)) ->
   relayUDP m
     (addClientConnection (viewDestinationIdentifier m) inClientEndpoint s)
   = Ok [SendTo inClientEndpoint (asCharVector m)])
  /\ (In (viewDestinationIdentifier m)
         (map viewIdentifier (m_connectedClients s)) ->
      relayUDP m
        (addClientConnection (viewDestinationIdentifier m) inClientEndpoint s)
      = relayUDP m s).
Proof.
  intros Hnb. apply String.eqb_neq in Hnb.
  unfold relayUDP, addClientConnection. rewrite Hnb.
  cbn [m_connectedClients set_connectedClients]. rewrite directLoop_app.
  split; intros H.
  - rewrite (directLoop_absent m _ H). cbn [directLoop viewIdentifier].
    now rewrite String.eqb_refl.
  - destruct (directLoop_present m _ H) as (? & ? & ? & _ & _ & _ & Hs).
    now rewrite Hs.
Qed.

End RelayMore.

(** ** Ingest *)

Section IngestMore.

Local Open Scope string_scope.
Local Open Scope list_scope.

(** The ingest iteration never reaches an [assert(false)]: it returns
    for every message, with the message at the back of the queue unless
    it is a sync message, which leaves the queue and the client list as
    they were. *)
Theorem listenLoop_returns
  (message : dataMessage) (clientEndpoint : endpoint) (s : server) :
  exists s',
    listenLoop message clientEndpoint s = Ok s'
    /\ m_messageQueue s'
       = (if isSync (viewMessageType message)
          then m_messageQueue s
          else m_messageQueue s ++ [message])
    /\ (isSync (viewMessageType message) = true ->
        m_connectedClients s' = m_connectedClients s)
    /\ (viewMessageType message = CHAT
        \/ viewMessageType message = PRIVATE_MESSAGE ->
        s' = addToMessageQueue message s).
Proof.
  unfold listenLoop, receiveClientsFromAdjacentServers.
  destruct (viewMessageType message); eexists;
    (split; [reflexivity|]); cbn [isSync];
    repeat split; try discriminate; try reflexivity;
    try (intros _; reflexivity);
    try (intros [H | H]; discriminate H).
  unfold removeClientConnection.
  destruct (m_connectedClients s) as [|c rest]; [reflexivity|].
  now destruct (viewIdentifier c =? viewSourceIdentifier message).
Qed.

(** Connecting and then disconnecting under one name.  On an empty
    client list the list is empty again.  When the first client already
    has the name, it is that older entry that goes and the new one stays
    at the back.  When the first client has another name, nothing is
    removed: the new entry stays. *)
Theorem removeClientConnection_after_addClientConnection
  (inClientUsername : string) (inClientEndpoint : endpoint) (s : server) :
  let s' := removeClientConnection inClientUsername
              (addClientConnection inClientUsername inClientEndpoint s) in
  (m_connectedClients s = [] -> m_connectedClients s' = [])
  /\ (forall c rest,
        m_connectedClients s = c :: rest ->
        viewIdentifier c = inClientUsername ->
        m_connectedClients s'
        = rest ++ [mkConnection inClientUsername inClientEndpoint])
  /\ (forall c rest,
        m_connectedClients s = c :: rest ->
        viewIdentifier c <> inClientUsername ->
        m_connectedClients s'
        = m_connectedClients s
            ++ [mkConnection inClientUsername inClientEndpoint]).
Proof.
  unfold removeClientConnection, addClientConnection.
  cbn [m_connectedClients set_connectedClients].
  repeat split.
  - intros ->. cbn [app viewIdentifier]. now rewrite String.eqb_refl.
  - intros c rest -> Hid. cbn [app]. apply String.eqb_eq in Hid.
    now rewrite Hid.
  - intros c rest -> Hid. cbn [app]. apply String.eqb_neq in Hid.
    now rewrite Hid.
Qed.

End IngestMore.

(** ** Ingest and dispatch together *)

Section Dispatch.

Context {K : Constants} {W : Wire}.

Local Open Scope string_scope.
Local Open Scope list_scope.

(** The announcement of a new client.  A CONNECTION message addressed to
    "broadcast", taken in on an empty queue and then dispatched, prints
    the line "Received <type> message from <source>", registers the
    sender at the back of the client list, is sent once to every client
    connected before whose identifier is not the sender's, in list order,
    gives no send for the entry just registered, and leaves the queue
    empty. *)
Theorem connection_announced
  (message : dataMessage) (clientEndpoint : endpoint) (s : server) :
  viewMessageType message = CONNECTION ->
  viewDestinationIdentifier message = "broadcast" ->
  m_messageQueue s = [] ->
  run [Listen message clientEndpoint; Relay] s
  = (set_connectedClients
       (m_connectedClients s
          ++ [mkConnection (viewSourceIdentifier message) clientEndpoint]) s,
     Cout ("Received " ++ viewMessageTypeAsString message
             ++ " message from " ++ viewSourceIdentifier message)
       :: map (fun c => SendTo (viewEndpoint c) (asCharVector message))
            (filter
               (fun c =>
                  negb (viewIdentifier c =? viewSourceIdentifier message))
               (m_connectedClients s))).
Proof.
  intros Ht Hb Hq.
  cbn [run step]. unfold listenLoop. rewrite Ht.
  unfold relayLoop, addToMessageQueue, addClientConnection.
  cbn [m_messageQueue set_messageQueue set_connectedClients].
  rewrite Hq. cbn [app].
  unfold relayUDP. rewrite Hb, String.eqb_refl.
  cbn [m_connectedClients set_messageQueue set_connectedClients
       relayBluetooth fst snd].
  rewrite !app_nil_r, broadcastLoop_filter, filter_app.
  cbn [filter viewIdentifier]. rewrite String.eqb_refl. cbn [negb].
  rewrite app_nil_r. cbn [app]. f_equal.
  destruct s. cbn in Hq. subst. reflexivity.
Qed.

Lemma relayUDP_set_messageQueue
  (m : dataMessage) (q : list dataMessage) (s : server) :
  relayUDP m (set_messageQueue q s) = relayUDP m s.
Proof. reflexivity. Qed.

Lemma relayEvents_set_messageQueue
  (m : dataMessage) (q : list dataMessage) (s : server) :
  relayEvents m (set_messageQueue q s) = relayEvents m s.
Proof. reflexivity. Qed.

Lemma run_relay_queue (q : list dataMessage) (s : server) :
  m_leftAdjacentServerConnection s = None
  \/ m_rightAdjacentServerConnection s <> None ->
  run (repeat Relay (List.length q)) (set_messageQueue q s)
  = (set_messageQueue [] s, flat_map (fun m => relayEvents m s) q).
Proof.
  intros Hrest. induction q as [|m rest IH];
    cbn [List.length repeat run flat_map]; [reflexivity|].
  cbn [step]. unfold relayLoop.
  cbn [m_messageQueue set_messageQueue].
  rewrite relayUDP_set_messageQueue, (relayUDP_returns m s Hrest).
  change (set_messageQueue rest (set_messageQueue (m :: rest) s))
    with (set_messageQueue rest s).
  rewrite IH. cbn [relayBluetooth]. now rewrite app_nil_r.
Qed.

(** The dispatch loop empties the queue in order.  In a state where no
    relay can fault (no left connection, or a right connection), as many
    iterations as the queue is long relay every queued message, first in
    first out, each as [relayUDP] does in that state, and change nothing
    but the queue, which ends empty. *)
Theorem relayLoop_drains_queue (s : server) :
  m_leftAdjacentServerConnection s = None
  \/ m_rightAdjacentServerConnection s <> None ->
  run (repeat Relay (List.length (m_messageQueue s))) s
  = (set_messageQueue [] s,
     flat_map (fun m => relayEvents m s) (m_messageQueue s)).
Proof.
  intros Hrest.
  rewrite <- (run_relay_queue (m_messageQueue s) s Hrest).
  f_equal. now destruct s.
Qed.

End Dispatch.

(** ** More on the sync loop *)

Section SyncMore.

Context {K : Constants} {W : Wire}.

Local Open Scope string_scope.
Local Open Scope list_scope.

Lemma maintainLeft_atRest (net : network) (s : server) :
  leftAtRest s ->
  fst (maintainLeft net s) = s /\ noResolve (snd (maintainLeft net s)).
Proof.
  unfold leftAtRest, maintainLeft, noResolve. intros Hrest.
  destruct (leftAdjacentServerIndexIsValid (m_leftAdjacentServerIndex s)).
  - destruct (m_leftAdjacentServerConnection s) as [c|].
    + destruct (sendThrows net _ _); cbn [fst snd]; split;
        try reflexivity; repeat constructor.
    + destruct Hrest as [H | H]; [discriminate H | now elim H].
  - cbn [fst snd]. split; [reflexivity | constructor].
Qed.

Lemma maintainRight_atRest (net : network) (s : server) :
  rightAtRest s ->
  fst (maintainRight net s) = s /\ noResolve (snd (maintainRight net s)).
Proof.
  unfold rightAtRest, maintainRight, noResolve. intros Hrest.
  destruct (rightAdjacentServerIndexIsValid (m_rightAdjacentServerIndex s)).
  - destruct (m_rightAdjacentServerConnection s) as [c|].
    + destruct (sendThrows net _ _); cbn [fst snd]; split;
        try reflexivity; repeat constructor.
    + destruct Hrest as [H | H]; [discriminate H | now elim H].
  - cbn [fst snd]. split; [reflexivity | constructor].
Qed.

Lemma maintainToAdjacentServers_atRest (net : network) (s : server) :
  leftAtRest s -> rightAtRest s ->
  fst (maintainToAdjacentServers net s) = s
  /\ noResolve (snd (maintainToAdjacentServers net s)).
Proof.
  intros Hl Hr.
  destruct (maintainLeft_atRest net Hl) as [Hsl Hel].
  destruct (maintainRight_atRest net Hr) as [Hsr Her].
  unfold maintainToAdjacentServers.
  destruct (maintainLeft net s) as [s1 e1]. cbn [fst snd] in Hsl, Hel.
  subst s1.
  destruct (maintainRight net s) as [s2 e2]. cbn [fst snd] in *.
  split; [assumption | now apply Forall_app].
Qed.

(** Once both sides are at rest (position not valid, or connection
    there), the sync loop changes the state no more and queries the
    resolver no more: any number of iterations against the same network
    leaves the state as it is and repeats the events of one iteration. *)
Theorem maintainToAdjacentServers_at_rest
  (net : network) (n : nat) (s : server) :
  leftAtRest s -> rightAtRest s ->
  run (repeat (Maintain net) n) s
  = (s, List.concat (repeat (snd (maintainToAdjacentServers net s)) n))
  /\ noResolve (snd (maintainToAdjacentServers net s)).
Proof.
  intros Hl Hr.
  destruct (maintainToAdjacentServers_atRest net Hl Hr) as [Hs He].
  split; [|exact He].
  induction n as [|n IH]; cbn [repeat run List.concat]; [reflexivity|].
  cbn [step].
  destruct (maintainToAdjacentServers net s) as [s1 e1].
  cbn [fst snd] in *. subst s1. now rewrite IH.
Qed.

(** How the left slot heals: at a valid position with no connection, an
    iteration whose resolution succeeds stores a connection under the
    neighbour's name and the resolved endpoint and sends nothing; the
    next iteration sends one SYNC_LEFT message with the client list to
    that endpoint (when the send does not throw) and changes nothing. *)
Theorem maintainLeft_resolves_then_syncs
  (net net' : network) (s : server) (resolved : endpoint) :
  let index := m_leftAdjacentServerIndex s in
  let host := serverHostName index in
  let service := to_string (serverListeningPorts index) in
  let connected :=
    set_leftConnection
      (Some (mkConnection (serverIndexToServerName index) resolved)) s in
  let datagram :=
    asCharVector
      (syncMessage (m_connectedClients s) (serverNames (m_index s))
         (serverNames index) SYNC_LEFT) in
  leftAdjacentServerIndexIsValid index = true ->
  m_leftAdjacentServerConnection s = None ->
  resolve net host service = Some resolved ->
  sendThrows net' resolved datagram = false ->
  maintainLeft net s = (connected, [Resolve host service])
  /\ maintainLeft net' connected = (connected, [SendTo resolved datagram]).
Proof.
  intros index host service connected datagram Hv Hnone Hres Hsend.
  subst index host service connected datagram.
  unfold maintainLeft.
  cbn [m_leftAdjacentServerIndex m_leftAdjacentServerConnection
       set_leftConnection m_connectedClients m_index viewEndpoint].
  rewrite Hv, Hnone, Hres, Hsend. split; reflexivity.
Qed.

(** The same for the right slot, with a SYNC_RIGHT message. *)
Theorem maintainRight_resolves_then_syncs
  (net net' : network) (s : server) (resolved : endpoint) :
  let index := m_rightAdjacentServerIndex s in
  let host := serverHostName index in
  let service := to_string (serverListeningPorts index) in
  let connected :=
    set_rightConnection
      (Some (mkConnection (serverIndexToServerName index) resolved)) s in
  let datagram :=
    asCharVector
      (syncMessage (m_connectedClients s) (serverNames (m_index s))
         (serverNames index) SYNC_RIGHT) in
  rightAdjacentServerIndexIsValid index = true ->
  m_rightAdjacentServerConnection s = None ->
  resolve net host service = Some resolved ->
  sendThrows net' resolved datagram = false ->
  maintainRight net s = (connected, [Resolve host service])
  /\ maintainRight net' connected = (connected, [SendTo resolved datagram]).
Proof.
  intros index host service connected datagram Hv Hnone Hres Hsend.
  subst index host service connected datagram.
  unfold maintainRight.
  cbn [m_rightAdjacentServerIndex m_rightAdjacentServerConnection
       set_rightConnection m_connectedClients m_index viewEndpoint].
  rewrite Hv, Hnone, Hres, Hsend. split; reflexivity.
Qed.

Lemma maintainToAdjacentServers_keeps (net : network) (s : server) :
  let s' := fst (maintainToAdjacentServers net s) in
  m_connectedClients s' = m_connectedClients s
  /\ m_leftAdjacentServerConnectedClients s'
     = m_leftAdjacentServerConnectedClients s
  /\ m_rightAdjacentServerConnectedClients s'
     = m_rightAdjacentServerConnectedClients s
  /\ m_messageQueue s' = m_messageQueue s
  /\ m_index s' = m_index s
  /\ m_terminate s' = m_terminate s.
Proof.
  cbn zeta. rewrite fst_maintainToAdjacentServers.
  assert (HL : forall s0,
    let s1 := fst (maintainLeft net s0) in
    m_connectedClients s1 = m_connectedClients s0
    /\ m_leftAdjacentServerConnectedClients s1
       = m_leftAdjacentServerConnectedClients s0
    /\ m_rightAdjacentServerConnectedClients s1
       = m_rightAdjacentServerConnectedClients s0
    /\ m_messageQueue s1 = m_messageQueue s0
    /\ m_index s1 = m_index s0
    /\ m_terminate s1 = m_terminate s0).
  { intros s0. unfold maintainLeft.
    destruct (leftAdjacentServerIndexIsValid _);
      [destruct (m_leftAdjacentServerConnection s0);
         [destruct (sendThrows net _ _) | destruct (resolve net _ _)]|];
      cbn; now repeat split. }
  assert (HR : forall s0,
    let s1 := fst (maintainRight net s0) in
    m_connectedClients s1 = m_connectedClients s0
    /\ m_leftAdjacentServerConnectedClients s1
       = m_leftAdjacentServerConnectedClients s0
    /\ m_rightAdjacentServerConnectedClients s1
       = m_rightAdjacentServerConnectedClients s0
    /\ m_messageQueue s1 = m_messageQueue s0
    /\ m_index s1 = m_index s0
    /\ m_terminate s1 = m_terminate s0).
  { intros s0. unfold maintainRight.
    destruct (rightAdjacentServerIndexIsValid _);
      [destruct (m_rightAdjacentServerConnection s0);
         [destruct (sendThrows net _ _) | destruct (resolve net _ _)]|];
      cbn; now repeat split. }
  destruct (HL s) as (H1 & H2 & H3 & H4 & H5 & H6).
  destruct (HR (fst (maintainLeft net s))) as (G1 & G2 & G3 & G4 & G5 & G6).
  cbn zeta in *.
  rewrite G1, G2, G3, G4, G5, G6. now repeat split.
Qed.


(** No loop writes the termination flag or the server's own index: along
    every execution both are what they were at the start. *)
Theorem run_keeps_index_and_flag (actions : list action) (s : server) :
  m_index (fst (run actions s)) = m_index s
  /\ m_terminate (fst (run actions s)) = m_terminate s.
Proof.
  revert s. induction actions as [|a rest IH]; intros s; cbn [run].
  - now split.
  - destruct (step a s) as [[s' events]|] eqn:E; [|now split].
    specialize (IH s'). destruct (run rest s') as [s'' later].
    cbn [fst] in *.
    assert (Hstep : m_index s' = m_index s
                    /\ m_terminate s' = m_terminate s).
    { destruct a as [message clientEndpoint | | net]; cbn [step] in E.
      - revert E. unfold listenLoop, receiveClientsFromAdjacentServers,
          removeClientConnection.
        destruct (viewMessageType message); intros [= <- _];
          try (now split).
        destruct (m_connectedClients s) as [|c r]; [now split|].
        now destruct (String.eqb (viewIdentifier c)
                        (viewSourceIdentifier message)).
      - revert E. unfold relayLoop.
        destruct (m_messageQueue s) as [|m q]; [now intros [= <- _]|].
        destruct (relayUDP m s); [|discriminate].
        now intros [= <- _].
      - injection E as E.
        destruct (maintainToAdjacentServers_keeps net s)
          as (_ & _ & _ & _ & Hi & Ht).
        rewrite E in Hi, Ht. now split. }
    destruct IH as [IH1 IH2], Hstep as [S1 S2].
    split; congruence.
Qed.

(** The server at the left end of the chain forwards nothing.  Started
    from the constructor at an index whose left position is not valid, it
    has no left connection after any execution, so every unicast message
    whose destination is not a local client is dropped, whatever the
    right connection and the right roster have become. *)
Theorem leftmost_server_never_forwards
  (actions : list action) (inServerIndex : Z) (m : dataMessage) :
  leftAdjacentServerIndexIsValid
    (m_leftAdjacentServerIndex (newServer inServerIndex)) = false ->
  viewDestinationIdentifier m <> "broadcast" ->
  ~ In (viewDestinationIdentifier m)
       (map viewIdentifier
          (m_connectedClients (fst (run actions (newServer inServerIndex))))) ->
  relayUDP m (fst (run actions (newServer inServerIndex)))
  = Ok [messageDropped (viewDestinationIdentifier m)].
Proof.
  intros Hinv Hnb Hc.
  apply relayUDP_without_left_connection; try assumption.
  destruct (run_slotsKept actions (newServer inServerIndex))
    as (_ & _ & _ & _ & Hleft & _).
  now rewrite (Hleft Hinv).
Qed.

End SyncMore.

(** ** Instances of the further properties on the concrete chain *)

Section MoreWitnesses.

Local Open Scope string_scope.
Local Open Scope list_scope.

Lemma relayUDP_left_roster_witness :
  viewDestinationIdentifier (chat "alice" "dave" "hello") <> "broadcast"
  /\ ~ In "dave" (map viewIdentifier (m_connectedClients middleServer))
  /\ m_leftAdjacentServerConnection middleServer = Some leftServer
  /\ In "dave" (m_leftAdjacentServerConnectedClients middleServer)
  /\ relayUDP (W:=codecWire) (chat "alice" "dave" "hello") middleServer
     = Ok [SendTo (viewEndpoint leftServer)
             (Codec.encode (chat "alice" "dave" "hello"))].
Proof.
  assert (Hnb : viewDestinationIdentifier (chat "alice" "dave" "hello")
                <> "broadcast") by discriminate.
  assert (Hc : ~ In "dave"
                 (map viewIdentifier (m_connectedClients middleServer)))
    by (cbn; intros [H | [H | [H | []]]]; discriminate H).
  assert (Hl : In "dave" (m_leftAdjacentServerConnectedClients middleServer))
    by (now left).
  repeat (split; [first [assumption | reflexivity]|]).
  exact (relayUDP_left_roster (W:=codecWire)
           (chat "alice" "dave" "hello") middleServer Hnb Hc eq_refl Hl).
Defined.

Lemma leftmost_server_never_forwards_witness :
  leftAdjacentServerIndexIsValid (Constants:=chainOfThree)
    (m_leftAdjacentServerIndex (newServer 0)) = false
  /\ viewDestinationIdentifier (chat "alice" "erin" "hi") <> "broadcast"
  /\ m_connectedClients leftmostServer = [alice]
  /\ m_rightAdjacentServerConnectedClients leftmostServer = ["erin"]
  /\ relayUDP (W:=codecWire) (chat "alice" "erin" "hi") leftmostServer
     = Ok [messageDropped "erin"].
Proof.
  assert (Hnb : viewDestinationIdentifier (chat "alice" "erin" "hi")
                <> "broadcast") by discriminate.
  assert (Hc : ~ In (viewDestinationIdentifier (chat "alice" "erin" "hi"))
                 (map viewIdentifier
                    (m_connectedClients
                       (fst (run (K:=chainOfThree) (W:=codecWire)
                               leftmostActions (newServer 0))))))
    by (vm_compute; intros [H | []]; discriminate H).
  split; [reflexivity|]. split; [exact Hnb|].
  split; [reflexivity|]. split; [reflexivity|].
  exact (leftmost_server_never_forwards (K:=chainOfThree) (W:=codecWire)
           leftmostActions 0 (chat "alice" "erin" "hi") eq_refl Hnb Hc).
Defined.

Lemma relayUDP_right_roster_witness :
  viewDestinationIdentifier (chat "alice" "erin" "hi") <> "broadcast"
  /\ ~ In "erin" (map viewIdentifier (m_connectedClients middleServer))
  /\ m_leftAdjacentServerConnection middleServer = Some leftServer
  /\ ~ In "erin" (m_leftAdjacentServerConnectedClients middleServer)
  /\ m_rightAdjacentServerConnection middleServer = Some rightServer
  /\ In "erin" (m_rightAdjacentServerConnectedClients middleServer)
  /\ relayUDP (W:=codecWire) (chat "alice" "erin" "hi") middleServer
     = Ok [SendTo (viewEndpoint rightServer)
             (Codec.encode (chat "alice" "erin" "hi"))].
Proof.
  assert (Hnb : viewDestinationIdentifier (chat "alice" "erin" "hi")
                <> "broadcast") by discriminate.
  assert (Hc : ~ In "erin"
                 (map viewIdentifier (m_connectedClients middleServer)))
    by (cbn; intros [H | [H | [H | []]]]; discriminate H).
  assert (Hnl : ~ In "erin"
                  (m_leftAdjacentServerConnectedClients middleServer))
    by (cbn; intros [H | []]; discriminate H).
  assert (Hr : In "erin" (m_rightAdjacentServerConnectedClients middleServer))
    by (now left).
  repeat (split; [first [assumption | reflexivity]|]).
  exact (relayUDP_right_roster (W:=codecWire)
           (chat "alice" "erin" "hi") middleServer Hnb Hc eq_refl Hnl
           eq_refl Hr).
Defined.

Lemma relayUDP_fault_iff_witness :
  relayUDP (W:=codecWire) (chat "alice" "erin" "hi") rightUnresolvedServer
  = Fault NullPointerDereference.
Proof.
  apply (relayUDP_fault_iff (W:=codecWire)).
  repeat split; try discriminate.
  - cbn; intros [H | [H | [H | []]]]; discriminate H.
  - cbn; intros [H | []]; discriminate H.
  - now left.
Defined.

Lemma relayUDP_targets_witness :
  relayUDP (W:=codecWire) (chat "alice" "dave" "hello") middleServer
  = Ok [SendTo (viewEndpoint leftServer)
          (Codec.encode (chat "alice" "dave" "hello"))]
  /\ incl [viewEndpoint leftServer]
       (map viewEndpoint (m_connectedClients middleServer)
          ++ neighbourEndpoints middleServer)
  /\ (viewDestinationIdentifier (chat "alice" "dave" "hello") <> "broadcast"
      -> List.length [SendTo (viewEndpoint leftServer)
                        (Codec.encode (chat "alice" "dave" "hello"))]
         = 1%nat).
Proof.
  assert (Hrun : relayUDP (W:=codecWire) (chat "alice" "dave" "hello")
                   middleServer
                 = Ok [SendTo (viewEndpoint leftServer)
                         (Codec.encode (chat "alice" "dave" "hello"))])
    by reflexivity.
  split; [exact Hrun|].
  exact (relayUDP_targets (W:=codecWire) _ _ Hrun).
Defined.

Lemma relayUDP_after_addClientConnection_witness :
  viewDestinationIdentifier (chat "alice" "zoe" "hello") <> "broadcast"
  /\ ~ In "zoe" (map viewIdentifier (m_connectedClients middleServer))
  /\ relayUDP (W:=codecWire) (chat "alice" "zoe" "hello")
       (addClientConnection "zoe" (mkEndpoint 2130706433 50009) middleServer)
     = Ok [SendTo (mkEndpoint 2130706433 50009)
             (Codec.encode (chat "alice" "zoe" "hello"))].
Proof.
  assert (Hnb : viewDestinationIdentifier (chat "alice" "zoe" "hello")
                <> "broadcast") by discriminate.
  assert (Hc : ~ In "zoe"
                 (map viewIdentifier (m_connectedClients middleServer)))
    by (cbn; intros [H | [H | [H | []]]]; discriminate H).
  repeat (split; [assumption|]).
  exact (proj1 (relayUDP_after_addClientConnection (W:=codecWire)
                  (chat "alice" "zoe" "hello")
                  (mkEndpoint 2130706433 50009) middleServer Hnb) Hc).
Defined.

Lemma listenLoop_returns_witness :
  exists s',
    listenLoop (chat "alice" "bob" "hello") (viewEndpoint alice) middleServer
    = Ok s'
    /\ m_messageQueue s' = [chat "alice" "bob" "hello"].
Proof.
  destruct (listenLoop_returns (chat "alice" "bob" "hello")
              (viewEndpoint alice) middleServer)
    as (s' & Hrun & Hq & _).
  exists s'. split; [exact Hrun | exact Hq].
Defined.

Lemma removeClientConnection_after_addClientConnection_witness :
  m_connectedClients middleServer = alice :: [bob; carol]
  /\ viewIdentifier alice <> "zoe"
  /\ m_connectedClients
       (removeClientConnection "zoe"
          (addClientConnection "zoe" (mkEndpoint 2130706433 50009)
             middleServer))
     = m_connectedClients middleServer
         ++ [mkConnection "zoe" (mkEndpoint 2130706433 50009)].
Proof.
  assert (Hid : viewIdentifier alice <> "zoe") by discriminate.
  split; [reflexivity|]. split; [exact Hid|].
  exact (proj2 (proj2 (removeClientConnection_after_addClientConnection
                         "zoe" (mkEndpoint 2130706433 50009) middleServer))
           alice [bob; carol] eq_refl Hid).
Defined.

Lemma removeClientConnection_head_or_absent_witness :
  (forall c rest, m_connectedClients middleServer = c :: rest ->
                  viewIdentifier c = "alice"
                  \/ ~ In "alice" (map viewIdentifier rest))
  /\ m_connectedClients (removeClientConnection "alice" middleServer)
     = removeFirstMatching "alice" (m_connectedClients middleServer).
Proof.
  assert (H : forall c rest, m_connectedClients middleServer = c :: rest ->
                viewIdentifier c = "alice"
                \/ ~ In "alice" (map viewIdentifier rest))
    by (intros c rest [= <- _]; now left).
  split; [exact H|].
  exact (@removeClientConnection_head_or_absent "alice" middleServer H).
Defined.

Lemma connection_announced_witness :
  viewMessageType
    (mkMessage CONNECTION "zoe" "broadcast" (TextBody EmptyString))
  = CONNECTION
  /\ m_messageQueue middleServer = []
  /\ run (K:=chainOfThree) (W:=codecWire)
       [Listen (mkMessage CONNECTION "zoe" "broadcast" (TextBody EmptyString))
          (mkEndpoint 2130706433 50009);
        Relay] middleServer
     = (set_connectedClients
          [alice; bob; carol;
           mkConnection "zoe" (mkEndpoint 2130706433 50009)] middleServer,
        Cout "Received CONNECTION message from zoe"
          :: map (fun c =>
                    SendTo (viewEndpoint c)
                      (Codec.encode
                         (mkMessage CONNECTION "zoe" "broadcast"
                            (TextBody EmptyString))))
               [alice; bob; carol]).
Proof.
  split; [reflexivity|]. split; [reflexivity|].
  exact (connection_announced (K:=chainOfThree) (W:=codecWire)
           (mkMessage CONNECTION "zoe" "broadcast" (TextBody EmptyString))
           (mkEndpoint 2130706433 50009) middleServer
           eq_refl eq_refl eq_refl).
Defined.

Lemma relayLoop_drains_queue_witness :
  m_rightAdjacentServerConnection
    (set_messageQueue
       [chat "alice" "bob" "one"; chat "alice" "zoe" "two"] middleServer)
  <> None
  /\ run (K:=chainOfThree) (W:=codecWire) [Relay; Relay]
       (set_messageQueue
          [chat "alice" "bob" "one"; chat "alice" "zoe" "two"] middleServer)
     = (middleServer,
        [SendTo (viewEndpoint bob) (Codec.encode (chat "alice" "bob" "one"));
         messageDropped "zoe"]).
Proof.
  assert (Hr : m_rightAdjacentServerConnection
                 (set_messageQueue
                    [chat "alice" "bob" "one"; chat "alice" "zoe" "two"]
                    middleServer) <> None) by discriminate.
  split; [exact Hr|].
  exact (relayLoop_drains_queue (K:=chainOfThree) (W:=codecWire)
           (set_messageQueue
              [chat "alice" "bob" "one"; chat "alice" "zoe" "two"]
              middleServer)
           (or_intror Hr)).
Defined.

Lemma maintainToAdjacentServers_at_rest_witness :
  leftAtRest (K:=chainOfThree) middleServer
  /\ rightAtRest (K:=chainOfThree) middleServer
  /\ fst (run (K:=chainOfThree) (W:=codecWire)
            (repeat (Maintain networkDown) 3) middleServer)
     = middleServer
  /\ noResolve
       (snd (maintainToAdjacentServers (K:=chainOfThree) (W:=codecWire)
               networkDown middleServer)).
Proof.
  assert (Hl : leftAtRest (K:=chainOfThree) middleServer)
    by (right; discriminate).
  assert (Hr : rightAtRest (K:=chainOfThree) middleServer)
    by (right; discriminate).
  split; [exact Hl|]. split; [exact Hr|].
  destruct (maintainToAdjacentServers_at_rest (K:=chainOfThree)
              (W:=codecWire) networkDown 3 Hl Hr) as [Hrun Hres].
  split; [now rewrite Hrun | exact Hres].
Defined.

Lemma maintainLeft_resolves_then_syncs_witness :
  leftAdjacentServerIndexIsValid (Constants:=chainOfThree)
    (m_leftAdjacentServerIndex (newServer 1)) = true
  /\ m_leftAdjacentServerConnection (newServer 1) = None
  /\ resolve networkUp "localhost" "8080" = Some (viewEndpoint leftServer)
  /\ maintainLeft (K:=chainOfThree) (W:=codecWire) networkUp (newServer 1)
     = (set_leftConnection (Some leftServer) (newServer 1),
        [Resolve "localhost" "8080"])
  /\ maintainLeft (K:=chainOfThree) (W:=codecWire) networkUp
       (set_leftConnection (Some leftServer) (newServer 1))
     = (set_leftConnection (Some leftServer) (newServer 1),
        [SendTo (viewEndpoint leftServer)
           (Codec.encode
              (mkMessage SYNC_LEFT "server1" "server0" (RosterBody [])))]).
Proof.
  split; [reflexivity|]. split; [reflexivity|]. split; [reflexivity|].
  exact (@maintainLeft_resolves_then_syncs chainOfThree codecWire
           networkUp networkUp (newServer 1) (viewEndpoint leftServer)
           eq_refl eq_refl eq_refl eq_refl).
Defined.

Lemma maintainRight_resolves_then_syncs_witness :
  rightAdjacentServerIndexIsValid (Constants:=chainOfThree)
    (m_rightAdjacentServerIndex (newServer 1)) = true
  /\ m_rightAdjacentServerConnection (newServer 1) = None
  /\ resolve networkUp "localhost" "8082" = Some (viewEndpoint rightServer)
  /\ maintainRight (K:=chainOfThree) (W:=codecWire) networkUp (newServer 1)
     = (set_rightConnection (Some rightServer) (newServer 1),
        [Resolve "localhost" "8082"])
  /\ maintainRight (K:=chainOfThree) (W:=codecWire) networkUp
       (set_rightConnection (Some rightServer) (newServer 1))
     = (set_rightConnection (Some rightServer) (newServer 1),
        [SendTo (viewEndpoint rightServer)
           (Codec.encode
              (mkMessage SYNC_RIGHT "server1" "server2" (RosterBody [])))]).
Proof.
  split; [reflexivity|]. split; [reflexivity|]. split; [reflexivity|].
  exact (@maintainRight_resolves_then_syncs chainOfThree codecWire
           networkUp networkUp (newServer 1) (viewEndpoint rightServer)
           eq_refl eq_refl eq_refl eq_refl).
Defined.

End MoreWitnesses.

(** ** A broadcast and the endpoint of a neighbour *)

Section BroadcastAndNeighbours.

Local Open Scope string_scope.
Local Open Scope list_scope.

(** C9, as first stated, fails.  The client list takes the endpoint of
    any CONNECTION datagram: once one has come from the endpoint of the
    left neighbour, a broadcast from "alice" is sent to that endpoint.
    So it is not true that no broadcast send goes to the endpoint of a
    neighbour connection. *)
Lemma relayUDP_broadcast_reaches_neighbour_endpoint :
  m_leftAdjacentServerConnection neighbourAsClientServer = Some leftServer
  /\ m_connectedClients neighbourAsClientServer = [leftServer; alice]
  /\ relayUDP (W:=codecWire) (chat "alice" "broadcast" "hello")
       neighbourAsClientServer
     = Ok [SendTo (viewEndpoint leftServer)
             (Codec.encode (chat "alice" "broadcast" "hello"))]
  /\ ~ (forall (m : dataMessage) (s : server) (sent : list event),
          viewDestinationIdentifier m = "broadcast" ->
          relayUDP (W:=codecWire) m s = Ok sent ->
          forall ep, In ep (neighbourEndpoints s) ->
                     ~ In ep (sendTargets sent)).
Proof.
  assert (Hrun : relayUDP (W:=codecWire) (chat "alice" "broadcast" "hello")
                   neighbourAsClientServer
                 = Ok [SendTo (viewEndpoint leftServer)
                         (Codec.encode (chat "alice" "broadcast" "hello"))])
    by (vm_compute; reflexivity).
  split; [vm_compute; reflexivity|].
  split; [vm_compute; reflexivity|].
  split; [exact Hrun|].
  intros Hclaim.
  apply (Hclaim (chat "alice" "broadcast" "hello") neighbourAsClientServer
           _ eq_refl Hrun (viewEndpoint leftServer)).
  - vm_compute. now left.
  - now left.
Qed.

End BroadcastAndNeighbours.
